(** * app/main.py: the BCF versions and authentication discovery endpoints

    A shallow embedding of [app/main.py] together with the part of the
    framework semantics the module relies on: pydantic model construction,
    FastAPI's handling of [response_model], and Starlette's router.

    The module is written against pydantic's first major API ([class Config]
    with [schema_extra], [Field(None, ...)] to make a field optional); the
    framework model follows that generation of pydantic and FastAPI. *)

From Stdlib Require Import Ascii String ZArith.
From stdpp Require Import base option list strings gmap.

#[local] Set Warnings "-register-all".
#[local] Open Scope string_scope.
#[local] Open Scope Z_scope.

(** ** Python values

    The values that occur in the module's dict literals: [bool], [str] and
    [list].  A dict with string keys is a [gmap string pyval]. *)

Inductive pyval : Type :=
| PyBool (b : bool)
| PyStr (s : string)
| PyList (l : list pyval).

(** ** JSON documents

    Objects keep their members in order, as Python dicts and [json.dumps]
    do. *)

Inductive json : Type :=
| JNull
| JBool (b : bool)
| JString (s : string)
| JArray (items : list json)
| JObject (members : list (string * json)).

Fixpoint members_get (k : string) (ms : list (string * json)) : option json :=
  match ms with
  | [] => None
  | (k', v) :: ms' => if String.eqb k k' then Some v else members_get k ms'
  end.

Definition json_get (k : string) (j : json) : option json :=
  match j with
  | JObject ms => members_get k ms
  | _ => None
  end.

(** A member is present when the object binds the key to something other
    than [null]. *)
Definition present (k : string) (j : json) : Prop :=
  ∃ v, json_get k j = Some v ∧ v ≠ JNull.

(** ** Module globals and the interpreter monad

    The two module-level objects the handlers read (the schema examples of
    [Version] and [Versions] are read only when the OpenAPI document is
    generated).  A handler runs in a state-and-exception monad over them. *)

Record Globals : Type := {
  cur_fake_db : list (gmap string pyval);
  cur_example : gmap string pyval
}.

Inductive exn : Type :=
| ValidationError (model : string).

Inductive outcome (A : Type) : Type :=
| Returned (a : A)
| Raised (e : exn).
Arguments Returned {A} a.
Arguments Raised {A} e.

Definition Py (A : Type) : Type := Globals → outcome A * Globals.

#[global] Instance Py_ret : MRet Py := λ A a g, (Returned a, g).

#[global] Instance Py_bind : MBind Py := λ A B f m g,
  match m g with
  | (Returned a, g') => f a g'
  | (Raised e, g') => (Raised e, g')
  end.

Definition raise {A : Type} (e : exn) : Py A := λ g, (Raised e, g).

Definition gets {A : Type} (f : Globals → A) : Py A := λ g, (Returned (f g), g).

(** A pure, fallible step lifted into the monad. *)
Definition check {A : Type} (model : string) (o : option A) : Py A :=
  match o with
  | Some a => mret a
  | None => raise (ValidationError model)
  end.

(** ** pydantic

    The scalar validators are pydantic's own and are taken as an interface:
    [str_validator] and [bool_validator] act on an arbitrary value,
    [AnyHttpUrl_validate] is the URL check that [AnyHttpUrl] applies to a
    string (scheme, host, no trailing garbage) and returns the URL string the
    field will hold.  The two laws say that a value that already has the
    field's type passes unchanged. *)

Class Pydantic : Type := {
  str_validator : pyval → option string;
  bool_validator : pyval → option bool;
  AnyHttpUrl_validate : string → option string;
  str_validator_str : ∀ s, str_validator (PyStr s) = Some s;
  bool_validator_bool : ∀ b, bool_validator (PyBool b) = Some b
}.

(** [AnyHttpUrl] as a field type: coerce to [str], then check the URL. *)
Definition AnyHttpUrl `{Pydantic} (v : pyval) : option string :=
  s ← str_validator v; AnyHttpUrl_validate s.

(** [List[str]] as a field type. *)
Definition List_str `{Pydantic} (v : pyval) : option (list string) :=
  match v with
  | PyList l => mapM str_validator l
  | _ => None
  end.

(** A field declared without a default: the key must be there. *)
Definition required_field {A : Type} (validate : pyval → option A)
    (k : string) (kwargs : gmap string pyval) : option A :=
  v ← kwargs !! k; validate v.

(** A field declared with [Field(None, ...)]: a missing key gives [None],
    a given value is validated. *)
Definition optional_field {A : Type} (validate : pyval → option A)
    (k : string) (kwargs : gmap string pyval) : option (option A) :=
  match kwargs !! k with
  | None => Some None
  | Some v => a ← validate v; Some (Some a)
  end.

Record Version : Type := {
  version_id : string;
  detailed_version : option string
}.

Record Versions : Type := {
  versions : list Version
}.

Record AuthenticationInGet : Type := {
  oauth2_auth_url : option string;
  oauth2_token_url : option string;
  oauth2_dynamic_client_reg_url : option string;
  http_basic_supported : option bool;
  supported_oauth2_flows : option (list string)
}.

(** The call [Version] on the keyword arguments [**item].  Keys that name
    no field are ignored. *)
Definition Version_parse `{Pydantic} (item : gmap string pyval) : option Version :=
  vid ← required_field str_validator "version_id" item;
  dv ← optional_field AnyHttpUrl "detailed_version" item;
  Some {| version_id := vid; detailed_version := dv |}.

Definition new_Version `{Pydantic} (item : gmap string pyval) : Py Version :=
  check "Version" (Version_parse item).

(** [Versions(versions=...)] on a list of [Version] instances: an instance
    of the field's model class is accepted as it is. *)
Definition new_Versions (vs : list Version) : Py Versions :=
  mret {| versions := vs |}.

(** The call [AuthenticationInGet] on the keyword arguments [**d]. *)
Definition AuthenticationInGet_parse `{Pydantic} (d : gmap string pyval)
    : option AuthenticationInGet :=
  a ← optional_field AnyHttpUrl "oauth2_auth_url" d;
  t ← optional_field AnyHttpUrl "oauth2_token_url" d;
  r ← optional_field AnyHttpUrl "oauth2_dynamic_client_reg_url" d;
  b ← optional_field bool_validator "http_basic_supported" d;
  f ← optional_field List_str "supported_oauth2_flows" d;
  Some {| oauth2_auth_url := a; oauth2_token_url := t;
          oauth2_dynamic_client_reg_url := r; http_basic_supported := b;
          supported_oauth2_flows := f |}.

Definition new_AuthenticationInGet `{Pydantic} (d : gmap string pyval)
    : Py AuthenticationInGet :=
  check "AuthenticationInGet" (AuthenticationInGet_parse d).

(** ** FastAPI: encoding a model for the response

    [jsonable_encoder] turns a model into a JSON object, one member per
    declared field in declaration order.  A field that holds [None] becomes
    [null] unless [exclude_none] is set. *)

Definition json_object (exclude_none : bool)
    (fields : list (string * option json)) : json :=
  JObject (flat_map (λ kv,
    match kv.2 with
    | Some j => [(kv.1, j)]
    | None => if exclude_none then [] else [(kv.1, JNull)]
    end) fields).

Definition Version_json (exclude_none : bool) (v : Version) : json :=
  json_object exclude_none
    [("version_id", Some (JString (version_id v)));
     ("detailed_version", JString <$> detailed_version v)].

Definition Versions_json (exclude_none : bool) (v : Versions) : json :=
  json_object exclude_none
    [("versions", Some (JArray (Version_json exclude_none <$> versions v)))].

Definition AuthenticationInGet_json (exclude_none : bool)
    (a : AuthenticationInGet) : json :=
  json_object exclude_none
    [("oauth2_auth_url", JString <$> oauth2_auth_url a);
     ("oauth2_token_url", JString <$> oauth2_token_url a);
     ("oauth2_dynamic_client_reg_url", JString <$> oauth2_dynamic_client_reg_url a);
     ("http_basic_supported", JBool <$> http_basic_supported a);
     ("supported_oauth2_flows",
        (λ l, JArray (JString <$> l)) <$> supported_oauth2_flows a)].

(** ** HTTP requests and responses *)

Record request : Type := {
  method : string;
  path : string
}.

Definition GET (p : string) : request := {| method := "GET"; path := p |}.

(** The documents FastAPI generates for its own routes; their text plays no
    role here. *)
Inductive document : Type :=
| OpenAPISchema
| SwaggerUI
| SwaggerUIRedirect
| ReDoc.

(** The response classes in use.  A redirect is given by the path it points
    to. *)
Inductive response : Type :=
| JSONResponse (status : Z) (content : json)
| PlainTextResponse (status : Z) (content : string)
| RedirectResponse (status : Z) (url : string)
| GeneratedResponse (status : Z) (doc : document).

Definition status_code (r : response) : Z :=
  match r with
  | JSONResponse s _ | PlainTextResponse s _
  | RedirectResponse s _ | GeneratedResponse s _ => s
  end.

Definition body_json (r : response) : option json :=
  match r with
  | JSONResponse _ j => Some j
  | _ => None
  end.

(** ** Starlette: path templates

    [compile_path] splits a route path into literal text and [{name}]
    parameters; a parameter stands for the regular expression [[^/]+]. *)

Inductive piece : Type :=
| Lit (text : string)
| Param (name : string).

Definition lit (acc : string) : list piece :=
  match acc with
  | "" => []
  | _ => [Lit acc]
  end.

Fixpoint compile_from (in_param : bool) (acc : string) (s : string) : list piece :=
  match s with
  | "" => if in_param then lit ("{" +:+ acc) else lit acc
  | String c s' =>
      if in_param then
        if Ascii.eqb c "}"%char then Param acc :: compile_from false "" s'
        else compile_from true (acc +:+ String c "") s'
      else
        if Ascii.eqb c "{"%char then lit acc ++ compile_from true "" s'
        else compile_from false (acc +:+ String c "") s'
  end.

Definition compile_path (p : string) : list piece := compile_from false "" p.

Fixpoint strip_prefix (p s : string) : option string :=
  match p with
  | "" => Some s
  | String a p' =>
      match s with
      | String b s' => if Ascii.eqb a b then strip_prefix p' s' else None
      | "" => None
      end
  end.

(** The compiled expression ends in [$], which in Python also matches just
    before a final newline. *)
Definition at_end (s : string) : bool :=
  match s with
  | "" => true
  | String c "" => Ascii.eqb c "010"%char
  | _ => false
  end.

(** [[^/]+] followed by the rest of the expression [k]: the longest
    non-empty run of characters other than [/] for which the rest matches. *)
Fixpoint capture {A : Type} (k : string → string → option A)
    (acc : string) (s : string) : option A :=
  let stop := match acc with "" => None | _ => k acc s end in
  match s with
  | "" => stop
  | String c s' =>
      if Ascii.eqb c "/"%char then stop
      else match capture k (acc +:+ String c "") s' with
           | Some r => Some r
           | None => stop
           end
  end.

(** The path parameters when the whole path matches the template. *)
Fixpoint path_match (t : list piece) (s : string) : option (list (string * string)) :=
  match t with
  | [] => if at_end s then Some [] else None
  | Lit l :: t' => rest ← strip_prefix l s; path_match t' rest
  | Param n :: t' =>
      capture (λ v rest, ps ← path_match t' rest; Some ((n, v) :: ps)) "" s
  end.

(** ** Starlette: routes and the router *)

Record route : Type := {
  route_path : string;
  route_name : string;
  route_methods : list string;
  endpoint : list (string * string) → Py response
}.

Inductive Match : Type :=
| NONE
| PARTIAL
| FULL.

Definition matches (r : route) (req : request) : Match * list (string * string) :=
  match path_match (compile_path (route_path r)) (path req) with
  | Some params =>
      if existsb (String.eqb (method req)) (route_methods r)
      then (FULL, params) else (PARTIAL, params)
  | None => (NONE, [])
  end.

(** The router's loop: the first full match wins; failing that, the first
    route that matches the path but not the method. *)
Inductive selection : Type :=
| Selected (r : route) (params : list (string * string))
| MethodMismatch (r : route)
| NoMatch.

Fixpoint select (routes : list route) (partial : option route) (req : request)
    : selection :=
  match routes with
  | [] => match partial with Some r => MethodMismatch r | None => NoMatch end
  | r :: routes' =>
      match matches r req with
      | (FULL, params) => Selected r params
      | (PARTIAL, _) =>
          select routes' (match partial with Some p => Some p | None => Some r end) req
      | (NONE, _) => select routes' partial req
      end
  end.

Fixpoint endswith_slash (s : string) : bool :=
  match s with
  | "" => false
  | String c "" => Ascii.eqb c "/"%char
  | String _ s' => endswith_slash s'
  end.

(** [s.rstrip("/")] *)
Fixpoint rstrip_slash (s : string) : string :=
  match s with
  | "" => ""
  | String c s' =>
      match rstrip_slash s' with
      | "" => if Ascii.eqb c "/"%char then "" else String c ""
      | r => String c r
      end
  end.

(** [redirect_slashes]: the same path with the trailing slash toggled. *)
Definition redirect_path (p : string) : string :=
  if endswith_slash p then rstrip_slash p else p +:+ "/".

(** Whether a route template matches a path, whatever the method. *)
Definition matches_template (t p : string) : bool :=
  bool_decide (is_Some (path_match (compile_path t) p)).

Definition matches_path (r : route) (p : string) : bool :=
  matches_template (route_path r) p.

Definition detail (msg : string) : json := JObject [("detail", JString msg)].

Definition Router_call (routes : list route) (req : request) : Py response :=
  match select routes None req with
  | Selected r params => endpoint r params
  | MethodMismatch _ => mret (JSONResponse 405 (detail "Method Not Allowed"))
  | NoMatch =>
      if negb (String.eqb (path req) "/")
         && existsb (λ r, matches_path r (redirect_path (path req))) routes
      then mret (RedirectResponse 307 (redirect_path (path req)))
      else mret (JSONResponse 404 (detail "Not Found"))
  end.

(** An exception that escapes the endpoint becomes a plain 500 response. *)
Definition ServerErrorMiddleware (inner : Py response) (g : Globals)
    : response * Globals :=
  match inner g with
  | (Returned r, g') => (r, g')
  | (Raised _, g') => (PlainTextResponse 500 "Internal Server Error", g')
  end.

(** ** FastAPI: API routes and the application's own routes

    An API route calls the handler, validates what it returned against the
    response model and answers 200 with the encoded model.  The
    [response_model_exclude_none] option of the decorator is [False] unless
    given.  The handler is called with the arguments its signature declares;
    path parameters it does not declare are dropped. *)

Definition response_model_exclude_none : bool := false.

Definition APIRoute {R M : Type} (p name : string) (handler : Py R)
    (validate : R → Py M) (encode : bool → M → json) : route :=
  {| route_path := p;
     route_name := name;
     route_methods := ["GET"];
     endpoint := λ _,
       raw ← handler;
       value ← validate raw;
       mret (JSONResponse 200 (encode response_model_exclude_none value)) |}.

Definition docs_route (p name : string) (doc : document) : route :=
  {| route_path := p;
     route_name := name;
     route_methods := ["GET"; "HEAD"];
     endpoint := λ _, mret (GeneratedResponse 200 doc) |}.

(** The routes [FastAPI(...)] registers when no [docs_url], [redoc_url] or
    [openapi_url] is given. *)
Definition FastAPI_setup : list route :=
  [docs_route "/openapi.json" "openapi" OpenAPISchema;
   docs_route "/docs" "swagger_ui_html" SwaggerUI;
   docs_route "/docs/oauth2-redirect" "swagger_ui_redirect" SwaggerUIRedirect;
   docs_route "/redoc" "redoc_html" ReDoc].

Definition include_router (router : list route) (prefix : string) : list route :=
  (λ r, {| route_path := prefix +:+ route_path r;
           route_name := route_name r;
           route_methods := route_methods r;
           endpoint := endpoint r |}) <$> router.

(** ** app/main.py *)

Definition fake_db : list (gmap string pyval) :=
  [ {[ "version_id" := PyStr "1.0";
       "detailed_version" := PyStr "https://github.com/BuildingSMART/BCF-API" ]};
    {[ "version_id" := PyStr "2.1";
       "detailed_version" := PyStr "https://github.com/BuildingSMART/BCF-API" ]} ].

(** [AuthenticationInGet.Config.schema_extra['example']] *)
Definition AuthenticationInGet_example : gmap string pyval :=
  {[ "oauth2_auth_url" := PyStr "https://example.com/bcf/oauth2/auth";
     "oauth2_token_url" := PyStr "https://example.com/bcf/oauth2/token";
     "oauth2_dynamic_client_reg_url" := PyStr "https://example.com/bcf/oauth2/reg";
     "http_basic_supported" := PyBool true;
     "supported_oauth2_flows" :=
       PyList [PyStr "authorization_code_grant";
               PyStr "implicit_grant";
               PyStr "resource_owner_password_credentials_grant"] ]}.

(** The globals as the module leaves them after import. *)
Definition module_globals : Globals :=
  {| cur_fake_db := fake_db; cur_example := AuthenticationInGet_example |}.

Definition get_versions `{Pydantic} : Py Versions :=
  db ← gets cur_fake_db;
  versions ← mapM new_Version db;
  new_Versions versions.

Definition get_auth : Py (gmap string pyval) :=
  gets cur_example.

(** The two decorated handlers.  [get_versions] returns a [Versions]
    instance, which its response model takes as it is; [get_auth] returns a
    dict, which its response model validates field by field. *)
Definition versions_route `{Pydantic} : route :=
  APIRoute "/versions" "get_versions" get_versions mret Versions_json.

Definition auth_route `{Pydantic} : route :=
  APIRoute "/{version}/auth" "get_auth" get_auth
    new_AuthenticationInGet AuthenticationInGet_json.

Definition router `{Pydantic} : list route := [versions_route; auth_route].

Definition app `{Pydantic} : list route :=
  FastAPI_setup ++ include_router router "/bcf".

(** One request against the running application. *)
Definition serve `{Pydantic} (req : request) (g : Globals) : response * Globals :=
  ServerErrorMiddleware (Router_call app req) g.

(** A sequence of requests, one after the other. *)
Fixpoint serve_all `{Pydantic} (reqs : list request) (g : Globals)
    : list response * Globals :=
  match reqs with
  | [] => ([], g)
  | req :: reqs' =>
      let (r, g') := serve req g in
      let (rs, g'') := serve_all reqs' g' in
      (r :: rs, g'')
  end.

(** ** A concrete set of validators

    Scalars of exactly the field's type, and a URL check that asks for an
    [http] or [https] scheme and a non-empty remainder.  It stands in for
    pydantic's validators when the model is run on concrete inputs. *)

Definition exact_str (v : pyval) : option string :=
  match v with
  | PyStr s => Some s
  | _ => None
  end.

Definition exact_bool (v : pyval) : option bool :=
  match v with
  | PyBool b => Some b
  | _ => None
  end.

Definition http_scheme_check (s : string) : option string :=
  match strip_prefix "https://" s, strip_prefix "http://" s with
  | Some (String _ _), _ | _, Some (String _ _) => Some s
  | _, _ => None
  end.

Definition exact_validators : Pydantic :=
  {| str_validator := exact_str;
     bool_validator := exact_bool;
     AnyHttpUrl_validate := http_scheme_check;
     str_validator_str := λ _, eq_refl;
     bool_validator_bool := λ _, eq_refl |}.

(** The templates of the application's routes, in registration order. *)
Definition registered_paths : list string :=
  ["/openapi.json"; "/docs"; "/docs/oauth2-redirect"; "/redoc";
   "/bcf/versions"; "/bcf/{version}/auth"].

Definition auth_template : list piece := compile_path "/bcf/{version}/auth".

Definition no_path_match (r : route) (p : string) : Prop :=
  path_match (compile_path (route_path r)) p = None.

(** A value the [{version}] parameter can take: a non-empty string without
    a slash. *)
Fixpoint slash_free (s : string) : bool :=
  match s with
  | "" => true
  | String c s' => negb (Ascii.eqb c "/"%char) && slash_free s'
  end.

Definition is_segment (v : string) : bool :=
  negb (String.eqb v "") && slash_free v.

(** The response bodies the two endpoints are documented to give. *)
Definition versions_body : json :=
  JObject [("versions", JArray
    [JObject [("version_id", JString "1.0");
              ("detailed_version", JString "https://github.com/BuildingSMART/BCF-API")];
     JObject [("version_id", JString "2.1");
              ("detailed_version", JString "https://github.com/BuildingSMART/BCF-API")]])].

Definition auth_body : json :=
  JObject [("oauth2_auth_url", JString "https://example.com/bcf/oauth2/auth");
           ("oauth2_token_url", JString "https://example.com/bcf/oauth2/token");
           ("oauth2_dynamic_client_reg_url", JString "https://example.com/bcf/oauth2/reg");
           ("http_basic_supported", JBool true);
           ("supported_oauth2_flows", JArray
              [JString "authorization_code_grant";
               JString "implicit_grant";
               JString "resource_owner_password_credentials_grant"])].

(** The URL literals of the module pass the URL check unchanged. *)
Definition accepts_module_urls `{Pydantic} : Prop :=
  Forall (λ u, AnyHttpUrl_validate u = Some u)
    ["https://github.com/BuildingSMART/BCF-API";
     "https://example.com/bcf/oauth2/auth";
     "https://example.com/bcf/oauth2/token";
     "https://example.com/bcf/oauth2/reg"].

(** The fields of [AuthenticationInGet], all of them optional. *)
Definition auth_fields : list string :=
  ["oauth2_auth_url"; "oauth2_token_url"; "oauth2_dynamic_client_reg_url";
   "http_basic_supported"; "supported_oauth2_flows"].

(** A table entry that passes the [Version] schema. *)
Definition well_formed_entry `{Pydantic} (item : gmap string pyval) : Prop :=
  (∃ v s, item !! "version_id" = Some v ∧ str_validator v = Some s) ∧
  (item !! "detailed_version" = None ∨
   ∃ v u, item !! "detailed_version" = Some v ∧ AnyHttpUrl v = Some u).

(** A member is present in a response when the response carries a JSON
    body in which it is present. *)
Definition response_present (k : string) (r : response) : Prop :=
  ∃ j, body_json r = Some j ∧ present k j.

(** The member an optional field gives when [None] is not excluded. *)
Definition null_or {A : Type} (f : A → json) (o : option A) : json :=
  match o with
  | Some a => f a
  | None => JNull
  end.

(** Two other configurations of the module data, to run the model on: a
    table whose entry carries a malformed link, and a table entry and a
    payload that leave optional fields out. *)
Definition malformed_globals : Globals :=
  {| cur_fake_db :=
       [ {[ "version_id" := PyStr "3.0";
            "detailed_version" := PyStr "BuildingSMART/BCF-API" ]} ];
     cur_example := AuthenticationInGet_example |}.

Definition sparse_globals : Globals :=
  {| cur_fake_db := [ {[ "version_id" := PyStr "3.0" ]} ];
     cur_example := {[ "http_basic_supported" := PyBool false ]} |}.

(** A computation that leaves the globals as it found them. *)
Definition read_only {A : Type} (m : Py A) : Prop := ∀ g, (m g).2 = g.

(** ** Further notions for the properties of the handlers *)

(** The fields of [AuthenticationInGet] declared as [AnyHttpUrl]. *)
Definition url_fields : list string :=
  ["oauth2_auth_url"; "oauth2_token_url"; "oauth2_dynamic_client_reg_url"].

(** A payload that passes the [AuthenticationInGet] schema: every field it
    gives passes the validator of the field's type.  No field has to be
    given. *)
Definition well_formed_payload `{Pydantic} (d : gmap string pyval) : Prop :=
  (∀ k v, k ∈ url_fields → d !! k = Some v → is_Some (AnyHttpUrl v)) ∧
  (∀ v, d !! "http_basic_supported" = Some v → is_Some (bool_validator v)) ∧
  (∀ v, d !! "supported_oauth2_flows" = Some v →
        ∃ l, v = PyList l ∧ Forall (λ x, is_Some (str_validator x)) l).

(** Two table entries, or two payloads, that agree on the keys naming a
    field of the model. *)
Definition same_Version_kwargs (a b : gmap string pyval) : Prop :=
  a !! "version_id" = b !! "version_id" ∧
  a !! "detailed_version" = b !! "detailed_version".

Definition same_AuthenticationInGet_kwargs (a b : gmap string pyval) : Prop :=
  ∀ k, k ∈ auth_fields → a !! k = b !! k.

(** The paths the two decorated routes answer to. *)
Definition api_path (p : string) : Prop :=
  matches_template "/bcf/versions" p = true ∨
  matches_template "/bcf/{version}/auth" p = true.

(** More configurations of the module data: an entry without [version_id],
    a payload that gives [oauth2_auth_url] without [oauth2_token_url], and
    a table entry and a payload with a key that names no field. *)
Definition missing_id_globals : Globals :=
  {| cur_fake_db :=
       [ {[ "version_id" := PyStr "1.0" ]};
         {[ "detailed_version" := PyStr "https://github.com/BuildingSMART/BCF-API" ]} ];
     cur_example := AuthenticationInGet_example |}.

Definition unpaired_globals : Globals :=
  {| cur_fake_db := fake_db;
     cur_example :=
       {[ "oauth2_auth_url" := PyStr "https://example.com/bcf/oauth2/auth" ]} |}.

Definition annotated_globals : Globals :=
  {| cur_fake_db :=
       [ {[ "version_id" := PyStr "1.0";
            "detailed_version" := PyStr "https://github.com/BuildingSMART/BCF-API";
            "released" := PyBool true ]};
         {[ "version_id" := PyStr "2.1";
            "detailed_version" := PyStr "https://github.com/BuildingSMART/BCF-API" ]} ];
     cur_example := <[ "comment" := PyStr "draft" ]> AuthenticationInGet_example |}.

(** The application as it would be with the two decorated routes
    registered in the other order. *)
Definition swapped_app `{Pydantic} : list route :=
  FastAPI_setup ++ include_router [auth_route; versions_route] "/bcf".

(** * Properties *)

(** ** The monad: computations that only read *)

Section Frame.
Context {A B : Type}.

Lemma read_only_ret (a : A) : read_only (mret a).
Proof. by intros g. Qed.

Lemma read_only_raise (e : exn) : read_only (@raise A e).
Proof. by intros g. Qed.

Lemma read_only_gets (f : Globals → A) : read_only (gets f).
Proof. by intros g. Qed.

Lemma read_only_check (model : string) (o : option A) :
  read_only (check model o).
Proof. destruct o; [apply read_only_ret | apply read_only_raise]. Qed.

Lemma read_only_bind (m : Py A) (f : A → Py B) :
  read_only m → (∀ a, read_only (f a)) → read_only (m ≫= f).
Proof.
  intros Hm Hf g. unfold mbind, Py_bind. specialize (Hm g).
  destruct (m g) as [[a|e] g']; simpl in *; subst; [apply Hf | done].
Qed.

End Frame.

Lemma read_only_mapM {A B : Type} (f : A → Py B) (l : list A) :
  (∀ a, read_only (f a)) → read_only (mapM f l).
Proof.
  intros Hf. induction l as [|a l IH]; simpl.
  - apply read_only_ret.
  - apply read_only_bind; [apply Hf|]. intros b.
    apply read_only_bind; [apply IH|]. intros bs. apply read_only_ret.
Qed.

Create HintDb frame.
#[local] Hint Resolve read_only_ret read_only_raise read_only_gets
  read_only_check read_only_bind read_only_mapM : frame.

(** ** Strings and path templates *)

Lemma append_nil_l (s : string) : "" +:+ s = s.
Proof. reflexivity. Qed.

Lemma append_cons (a : ascii) (s t : string) :
  String a s +:+ t = String a (s +:+ t).
Proof. reflexivity. Qed.

Lemma append_nil_r (s : string) : s +:+ "" = s.
Proof. induction s as [|a s IH]; [done|]. by rewrite append_cons, IH. Qed.

Lemma append_inv_l (l r r' : string) : l +:+ r = l +:+ r' → r = r'.
Proof.
  induction l as [|a l IH]; [done|]. rewrite !append_cons. intros [= ?]. auto.
Qed.

Lemma strip_prefix_Some (p s r : string) :
  strip_prefix p s = Some r ↔ s = p +:+ r.
Proof.
  revert s. induction p as [|a p IH]; intros s; simpl.
  - rewrite append_nil_l. split; congruence.
  - rewrite append_cons. destruct s as [|b s]; [split; discriminate|].
    destruct (Ascii.eqb_spec a b) as [->|Hne].
    + rewrite IH. split; congruence.
    + split; [discriminate | congruence].
Qed.

Lemma at_end_true (s : string) :
  at_end s = true ↔ s = "" ∨ s = String "010"%char "".
Proof.
  destruct s as [|c [|d s]]; simpl.
  - split; auto.
  - destruct (Ascii.eqb_spec c "010"%char) as [->|Hne].
    + split; auto.
    + split; [done|]. intros [?|[= ?]]; done.
  - split; [done|]. intros [?|?]; done.
Qed.

(** A literal template matches its own text, with or without a final
    newline, and nothing else. *)
Lemma path_match_Lit (l p : string) (ps : list (string * string)) :
  path_match [Lit l] p = Some ps ↔
  ps = [] ∧ (p = l ∨ p = l +:+ String "010"%char "").
Proof.
  simpl. destruct (strip_prefix l p) as [r|] eqn:Hr; simpl.
  - apply strip_prefix_Some in Hr as ->.
    destruct (at_end r) eqn:He.
    + apply at_end_true in He. split; [|by intros [-> _]].
      intros [= <-]. split; [done|].
      destruct He as [->| ->]; [left; apply append_nil_r | by right].
    + split; [done|]. intros [_ Hp].
      assert (r = "" ∨ r = String "010"%char "") as Hr;
        [|apply at_end_true in Hr; congruence].
      destruct Hp as [Hp|Hp]; [left|right].
      * apply (append_inv_l l). by rewrite append_nil_r.
      * by apply (append_inv_l l).
  - split; [done|]. intros [_ Hp].
    assert (is_Some (strip_prefix l p)) as [r Hr']; [|congruence].
    destruct Hp as [->| ->]; eexists; apply strip_prefix_Some; [|done].
    symmetry; apply append_nil_r.
Qed.

Lemma append_assoc (a b c : string) : (a +:+ b) +:+ c = a +:+ (b +:+ c).
Proof.
  induction a as [|x a IH]; [done|]. by rewrite !append_cons, IH.
Qed.

Lemma append_nonempty_r (a : string) (c : ascii) (b : string) :
  a +:+ String c b ≠ "".
Proof. destruct a; [rewrite append_nil_l | rewrite append_cons]; done. Qed.

(** The parameter takes everything up to the next slash when the rest of the
    template matches from there. *)
Lemma capture_greedy {A : Type} (k : string → string → option A)
    (v acc rest : string) (r : A) :
  slash_free v = true →
  acc +:+ v ≠ "" →
  k (acc +:+ v) (String "/"%char rest) = Some r →
  capture k acc (v +:+ String "/"%char rest) = Some r.
Proof.
  revert acc. induction v as [|c v IH]; intros acc Hv Hne Hk.
  - rewrite append_nil_l. rewrite append_nil_r in Hk, Hne. simpl.
    destruct acc; [done | exact Hk].
  - simpl in Hv. apply andb_true_iff in Hv as [Hc Hv].
    rewrite append_cons. simpl.
    destruct (Ascii.eqb c "/"%char); [done|].
    rewrite (IH (acc +:+ String c "")); [done | done | |].
    + rewrite append_assoc, append_cons, append_nil_l. apply append_nonempty_r.
    + by rewrite append_assoc, append_cons, append_nil_l.
Qed.

Lemma path_match_auth_segment (v : string) :
  is_segment v = true →
  path_match auth_template ("/bcf/" +:+ v +:+ "/auth") = Some [("version", v)].
Proof.
  intros Hv. apply andb_true_iff in Hv as [Hne Hv].
  change auth_template with [Lit "/bcf/"; Param "version"; Lit "/auth"].
  cbn [path_match].
  assert (strip_prefix "/bcf/" ("/bcf/" +:+ v +:+ "/auth") = Some (v +:+ "/auth")) as ->
    by by apply strip_prefix_Some.
  cbn [mbind option_bind].
  apply capture_greedy; [done | | done].
  rewrite append_nil_l. intros ->. done.
Qed.

(** ** The router *)

Section Router.
Implicit Types (r : route) (routes : list route) (req : request).

Lemma select_skip r routes partial req :
  no_path_match r (path req) →
  select (r :: routes) partial req = select routes partial req.
Proof. unfold no_path_match. intros Hr. simpl. unfold matches. by rewrite Hr. Qed.

Lemma select_full r routes partial req ps :
  path_match (compile_path (route_path r)) (path req) = Some ps →
  existsb (String.eqb (method req)) (route_methods r) = true →
  select (r :: routes) partial req = Selected r ps.
Proof. intros Hr Hm. simpl. unfold matches. by rewrite Hr, Hm. Qed.

Lemma select_NoMatch routes req :
  Forall (λ r, no_path_match r (path req)) routes →
  select routes None req = NoMatch.
Proof.
  induction 1 as [|r routes Hr _ IH]; [done|]. by rewrite select_skip.
Qed.

Lemma matches_path_false r (p : string) :
  matches_template (route_path r) p = false ↔ no_path_match r p.
Proof.
  unfold matches_template, no_path_match. rewrite bool_decide_eq_false.
  rewrite <- eq_None_not_Some. done.
Qed.

Lemma existsb_matches_path_false routes (p : string) :
  Forall (λ r, no_path_match r p) routes →
  existsb (λ r, matches_path r p) routes = false.
Proof.
  induction 1 as [|r routes Hr _ IH]; [done|]. simpl. rewrite IH.
  apply matches_path_false in Hr. unfold matches_path. by rewrite Hr.
Qed.

(** The router only ever runs the endpoint of one of its routes. *)
Lemma Router_call_read_only routes req :
  Forall (λ r, ∀ ps, read_only (endpoint r ps)) routes →
  read_only (Router_call routes req).
Proof.
  intros Hro. unfold Router_call.
  assert (∀ partial, match select routes partial req with
            | Selected r ps => read_only (endpoint r ps)
            | _ => True end) as Hsel.
  { induction Hro as [|r routes Hr _ IH]; intros partial; simpl.
    - by destruct partial.
    - destruct (matches r req) as [[] ps]; [apply IH.. | apply Hr]. }
  specialize (Hsel None). destruct (select routes None req); [done|..].
  - apply read_only_ret.
  - match goal with |- context [if ?b then _ else _] => destruct b end;
      apply read_only_ret.
Qed.

Lemma ServerErrorMiddleware_read_only (m : Py response) (g : Globals) :
  read_only m → (ServerErrorMiddleware m g).2 = g.
Proof.
  intros Hm. unfold ServerErrorMiddleware. specialize (Hm g).
  by destruct (m g) as [[?|?] ?].
Qed.

End Router.

(** ** The application *)

Section Application.
Context `{Pydantic}.

Lemma app_endpoints_read_only :
  Forall (λ r, ∀ ps, read_only (endpoint r ps)) app.
Proof.
  repeat apply Forall_cons_2; [..|apply Forall_nil_2]; intros ps; simpl;
    unfold get_versions, get_auth, new_Versions, new_Version,
      new_AuthenticationInGet;
    eauto 10 with frame.
Qed.

Lemma app_paths : route_path <$> app = registered_paths.
Proof. reflexivity. Qed.

Lemma serve_globals (req : request) (g : Globals) : (serve req g).2 = g.
Proof.
  apply ServerErrorMiddleware_read_only, Router_call_read_only,
    app_endpoints_read_only.
Qed.

Lemma serve_all_globals (reqs : list request) (g : Globals) :
  (serve_all reqs g).2 = g.
Proof.
  induction reqs as [|req reqs IH]; [done|]. simpl.
  pose proof (serve_globals req g) as Hg.
  destruct (serve req g) as [r g']. simpl in Hg. subst g'.
  by destruct (serve_all reqs g).
Qed.

Lemma serve_all_responses (reqs : list request) (g : Globals) :
  (serve_all reqs g).1 = (λ req, (serve req g).1) <$> reqs.
Proof.
  induction reqs as [|req reqs IH]; [done|]. simpl.
  pose proof (serve_globals req g) as Hg.
  destruct (serve req g) as [r g']. simpl in Hg. subst g'.
  destruct (serve_all reqs g); simpl in *. by rewrite IH.
Qed.

Lemma Py_bind_eq {A B : Type} (m : Py A) (f : A → Py B) (g : Globals) :
  (m ≫= f) g =
  match m g with
  | (Returned a, g') => f a g'
  | (Raised e, g') => (Raised e, g')
  end.
Proof. reflexivity. Qed.

Lemma check_eq {A : Type} (model : string) (o : option A) (g : Globals) :
  check model o g =
  (match o with
   | Some a => Returned a
   | None => Raised (ValidationError model)
   end, g).
Proof. by destruct o. Qed.

Lemma mapM_new_Version (db : list (gmap string pyval)) (g : Globals) :
  mapM new_Version db g =
  (match mapM Version_parse db with
   | Some vs => Returned vs
   | None => Raised (ValidationError "Version")
   end, g).
Proof.
  induction db as [|item db IH]; [done|]. simpl.
  rewrite Py_bind_eq. unfold new_Version at 1. rewrite check_eq.
  destruct (Version_parse item) as [v|]; simpl; [|done].
  rewrite Py_bind_eq, IH.
  by destruct (mapM Version_parse db).
Qed.

Lemma serve_versions (g : Globals) :
  serve (GET "/bcf/versions") g =
  (match mapM Version_parse (cur_fake_db g) with
   | Some vs => JSONResponse 200 (Versions_json false {| versions := vs |})
   | None => PlainTextResponse 500 "Internal Server Error"
   end, g).
Proof.
  change (serve (GET "/bcf/versions") g)
    with (ServerErrorMiddleware (endpoint versions_route []) g).
  unfold ServerErrorMiddleware. simpl. unfold get_versions.
  unfold mbind, Py_bind, gets. rewrite mapM_new_Version.
  by destruct (mapM Version_parse (cur_fake_db g)).
Qed.

Lemma auth_endpoint (ps : list (string * string)) (g : Globals) :
  ServerErrorMiddleware (endpoint auth_route ps) g =
  (match AuthenticationInGet_parse (cur_example g) with
   | Some a => JSONResponse 200 (AuthenticationInGet_json false a)
   | None => PlainTextResponse 500 "Internal Server Error"
   end, g).
Proof.
  unfold ServerErrorMiddleware. simpl. unfold get_auth.
  unfold mbind, Py_bind, gets, new_AuthenticationInGet.
  by destruct (AuthenticationInGet_parse (cur_example g)).
Qed.

(** A path the auth template matches is matched by no other route. *)
Lemma auth_path_exclusive (p : string) (ps : list (string * string)) :
  path_match auth_template p = Some ps →
  Forall (λ t, path_match (compile_path t) p = None)
    ["/openapi.json"; "/docs"; "/docs/oauth2-redirect"; "/redoc"; "/bcf/versions"].
Proof.
  intros Hp. repeat apply Forall_cons_2; [..|apply Forall_nil_2];
    match goal with |- path_match (compile_path ?t) _ = None =>
      change (compile_path t) with [Lit t];
      destruct (path_match [Lit t] p) as [qs|] eqn:Hq; [|done];
      apply path_match_Lit in Hq as [_ [->| ->]]; vm_compute in Hp; discriminate
    end.
Qed.

Lemma serve_auth (p : string) (ps : list (string * string)) (g : Globals) :
  path_match auth_template p = Some ps →
  serve (GET p) g =
  (match AuthenticationInGet_parse (cur_example g) with
   | Some a => JSONResponse 200 (AuthenticationInGet_json false a)
   | None => PlainTextResponse 500 "Internal Server Error"
   end, g).
Proof.
  intros Hp. rewrite <- (auth_endpoint ps). unfold serve, Router_call.
  pose proof (auth_path_exclusive p ps Hp) as Hex.
  rewrite !Forall_cons in Hex. destruct Hex as (H1 & H2 & H3 & H4 & H5 & _).
  unfold app, FastAPI_setup, include_router, router.
  cbn [fmap list_fmap List.app].
  rewrite select_skip by exact H1. rewrite select_skip by exact H2.
  rewrite select_skip by exact H3. rewrite select_skip by exact H4.
  rewrite select_skip by exact H5.
  by rewrite (select_full _ _ _ _ ps) by (exact Hp || done).
Qed.

End Application.

(** ** Model construction *)

Section Models.
Context `{Pydantic}.
Implicit Types (item d : gmap string pyval).

Lemma required_field_Some {A : Type} (validate : pyval → option A)
    (k : string) d (a : A) :
  required_field validate k d = Some a ↔
  ∃ v, d !! k = Some v ∧ validate v = Some a.
Proof.
  unfold required_field. destruct (d !! k) as [v|]; simpl.
  - split; [eauto|]. by intros (v' & [= <-] & ?).
  - split; [done|]. by intros (? & ? & ?).
Qed.

Lemma optional_field_absent {A : Type} (validate : pyval → option A)
    (k : string) d :
  d !! k = None → optional_field validate k d = Some None.
Proof. unfold optional_field. by intros ->. Qed.

Lemma optional_field_given {A : Type} (validate : pyval → option A)
    (k : string) d (v : pyval) :
  d !! k = Some v → optional_field validate k d = Some <$> validate v.
Proof. unfold optional_field. intros ->. by destruct (validate v). Qed.

(** What an optional field holds after validation: nothing exactly when
    the key is missing. *)
Lemma optional_field_None_iff {A : Type} (validate : pyval → option A)
    (k : string) d (o : option A) :
  optional_field validate k d = Some o → (o = None ↔ d !! k = None).
Proof.
  unfold optional_field. destruct (d !! k) as [v|]; [|by intros [= <-]].
  destruct (validate v); simpl; [|done]. by intros [= <-].
Qed.

Lemma Version_parse_given item (s u : string) (v : pyval) :
  item !! "version_id" = Some (PyStr s) →
  item !! "detailed_version" = Some v →
  AnyHttpUrl v = Some u →
  Version_parse item = Some {| version_id := s; detailed_version := Some u |}.
Proof.
  intros Hid Hdv Hu. unfold Version_parse.
  assert (required_field str_validator "version_id" item = Some s) as ->.
  { apply required_field_Some. eexists. split; [done|]. apply str_validator_str. }
  rewrite (optional_field_given _ _ _ v), Hu by done. done.
Qed.

Lemma Version_parse_bad_url item (v : pyval) :
  item !! "detailed_version" = Some v →
  AnyHttpUrl v = None →
  Version_parse item = None.
Proof.
  intros Hdv Hu. unfold Version_parse.
  rewrite (optional_field_given _ _ _ v), Hu by done.
  by destruct (required_field str_validator "version_id" item).
Qed.

Lemma Version_parse_well_formed item :
  well_formed_entry item ↔ is_Some (Version_parse item).
Proof.
  unfold well_formed_entry, Version_parse. split.
  - intros [(v & s & Hv & Hs) Hdv].
    assert (required_field str_validator "version_id" item = Some s) as ->
      by (apply required_field_Some; eauto).
    destruct Hdv as [Hdv|(w & u & Hw & Hu)].
    + by rewrite optional_field_absent.
    + by rewrite (optional_field_given _ _ _ w), Hu.
  - intros [vr Hvr].
    destruct (required_field str_validator "version_id" item) as [s|] eqn:Hs;
      [|done].
    apply required_field_Some in Hs as (v & Hv & Hs). split; [by exists v, s|].
    destruct (item !! "detailed_version") as [w|] eqn:Hw; [|by left].
    right. rewrite (optional_field_given _ _ _ w) in Hvr by done.
    destruct (AnyHttpUrl w) as [u|] eqn:Hu; [by exists w, u | done].
Qed.

End Models.

(** ** Encoding *)

Section Encoding.
Context `{Pydantic}.
Implicit Types (item d : gmap string pyval).

Lemma Version_json_members (v : Version) :
  Version_json false v =
  JObject [("version_id", JString (version_id v));
           ("detailed_version", null_or JString (detailed_version v))].
Proof. by destruct v as [s [u|]]. Qed.

Lemma AuthenticationInGet_json_members (a : AuthenticationInGet) :
  AuthenticationInGet_json false a =
  JObject [("oauth2_auth_url", null_or JString (oauth2_auth_url a));
           ("oauth2_token_url", null_or JString (oauth2_token_url a));
           ("oauth2_dynamic_client_reg_url",
              null_or JString (oauth2_dynamic_client_reg_url a));
           ("http_basic_supported", null_or JBool (http_basic_supported a));
           ("supported_oauth2_flows",
              null_or (λ l, JArray (JString <$> l)) (supported_oauth2_flows a))].
Proof. by destruct a as [[?|] [?|] [?|] [?|] [?|]]. Qed.

Lemma null_or_null {A : Type} (f : A → json) (o : option A) :
  (∀ a, f a ≠ JNull) → (null_or f o = JNull ↔ o = None).
Proof. intros Hf. destruct o as [a|]; simpl; [|done]. split; [by intros ?%Hf | done]. Qed.

Lemma Version_json_null item (v : Version) :
  Version_parse item = Some v →
  json_get "detailed_version" (Version_json false v) = Some JNull ↔
  item !! "detailed_version" = None.
Proof.
  intros Hv. rewrite Version_json_members. simpl.
  unfold Version_parse in Hv.
  destruct (required_field str_validator "version_id" item) as [s|]; [|done].
  simpl in Hv.
  destruct (optional_field AnyHttpUrl "detailed_version" item) as [dv|] eqn:Hdv;
    [|done].
  injection Hv as <-. simpl.
  rewrite <- (optional_field_None_iff _ _ _ _ Hdv).
  rewrite <- (null_or_null JString dv) by done. split; congruence.
Qed.

Lemma AuthenticationInGet_json_null d (a : AuthenticationInGet) (k : string) :
  AuthenticationInGet_parse d = Some a →
  k ∈ auth_fields →
  json_get k (AuthenticationInGet_json false a) = Some JNull ↔ d !! k = None.
Proof.
  intros Ha Hk. rewrite AuthenticationInGet_json_members.
  unfold AuthenticationInGet_parse in Ha.
  destruct (optional_field AnyHttpUrl "oauth2_auth_url" d) as [o1|] eqn:H1;
    [|done].
  destruct (optional_field AnyHttpUrl "oauth2_token_url" d) as [o2|] eqn:H2;
    [|done].
  destruct (optional_field AnyHttpUrl "oauth2_dynamic_client_reg_url" d)
    as [o3|] eqn:H3; [|done].
  destruct (optional_field bool_validator "http_basic_supported" d)
    as [o4|] eqn:H4; [|done].
  destruct (optional_field List_str "supported_oauth2_flows" d)
    as [o5|] eqn:H5; [|done].
  injection Ha as <-. cbn [oauth2_auth_url oauth2_token_url
    oauth2_dynamic_client_reg_url http_basic_supported supported_oauth2_flows].
  unfold auth_fields in Hk. rewrite !elem_of_cons, elem_of_nil in Hk.
  destruct Hk as [->|[->|[->|[->|[->|[]]]]]]; simpl.
  - rewrite <- (optional_field_None_iff _ _ _ _ H1).
    rewrite <- (null_or_null JString o1) by done. split; congruence.
  - rewrite <- (optional_field_None_iff _ _ _ _ H2).
    rewrite <- (null_or_null JString o2) by done. split; congruence.
  - rewrite <- (optional_field_None_iff _ _ _ _ H3).
    rewrite <- (null_or_null JString o3) by done. split; congruence.
  - rewrite <- (optional_field_None_iff _ _ _ _ H4).
    rewrite <- (null_or_null JBool o4) by done. split; congruence.
  - rewrite <- (optional_field_None_iff _ _ _ _ H5).
    rewrite <- (null_or_null (λ l, JArray (JString <$> l)) o5) by done.
    split; congruence.
Qed.

Lemma AuthenticationInGet_json_member (a : AuthenticationInGet) (k : string) :
  k ∈ auth_fields → is_Some (json_get k (AuthenticationInGet_json false a)).
Proof.
  intros Hk. rewrite AuthenticationInGet_json_members.
  unfold auth_fields in Hk. rewrite !elem_of_cons, elem_of_nil in Hk.
  destruct Hk as [->|[->|[->|[->|[->|[]]]]]]; simpl; eauto.
Qed.

End Encoding.

(** ** The module's literals under validation *)

Section Literals.
Context `{Pydantic}.
Hypothesis Hurls : accepts_module_urls.

Lemma module_url_accepted (u : string) :
  u ∈ ["https://github.com/BuildingSMART/BCF-API";
       "https://example.com/bcf/oauth2/auth";
       "https://example.com/bcf/oauth2/token";
       "https://example.com/bcf/oauth2/reg"] →
  AnyHttpUrl (PyStr u) = Some u.
Proof.
  intros Hu. unfold AnyHttpUrl. rewrite str_validator_str. simpl.
  unfold accepts_module_urls in Hurls. rewrite Forall_forall in Hurls.
  by apply Hurls.
Qed.

Lemma parse_fake_db :
  mapM Version_parse fake_db =
  Some [ {| version_id := "1.0";
            detailed_version := Some "https://github.com/BuildingSMART/BCF-API" |};
         {| version_id := "2.1";
            detailed_version := Some "https://github.com/BuildingSMART/BCF-API" |} ].
Proof.
  unfold fake_db. cbn [mapM].
  do 2 (erewrite Version_parse_given;
    [|reflexivity|reflexivity|apply module_url_accepted; set_solver]).
  done.
Qed.

Lemma parse_example :
  AuthenticationInGet_parse AuthenticationInGet_example =
  Some {| oauth2_auth_url := Some "https://example.com/bcf/oauth2/auth";
          oauth2_token_url := Some "https://example.com/bcf/oauth2/token";
          oauth2_dynamic_client_reg_url := Some "https://example.com/bcf/oauth2/reg";
          http_basic_supported := Some true;
          supported_oauth2_flows :=
            Some ["authorization_code_grant"; "implicit_grant";
                  "resource_owner_password_credentials_grant"] |}.
Proof.
  unfold AuthenticationInGet_parse.
  erewrite (optional_field_given _ "oauth2_auth_url"); [|reflexivity].
  erewrite (optional_field_given _ "oauth2_token_url"); [|reflexivity].
  erewrite (optional_field_given _ "oauth2_dynamic_client_reg_url"); [|reflexivity].
  erewrite (optional_field_given _ "http_basic_supported"); [|reflexivity].
  erewrite (optional_field_given _ "supported_oauth2_flows"); [|reflexivity].
  rewrite !module_url_accepted by set_solver.
  rewrite bool_validator_bool. cbn [List_str mapM].
  rewrite !str_validator_str. done.
Qed.

End Literals.

(** * The endpoints *)

Section Endpoints.
Context `{Pydantic}.

(** C1. Every GET request to [/bcf/versions] is answered with status 200 and
    a body that is exactly the two literal entries, "1.0" before "2.1", each
    with the BCF-API GitHub link, whatever requests were served before.
    The URL literals are assumed to pass pydantic's URL check unchanged. *)
Theorem get_versions_response (history : list request) :
  accepts_module_urls →
  (serve (GET "/bcf/versions") (serve_all history module_globals).2).1
  = JSONResponse 200 versions_body.
Proof.
  intros Hurls. rewrite serve_all_globals, serve_versions.
  cbn [fst cur_fake_db module_globals].
  by rewrite parse_fake_db.
Qed.

(** C2. Every GET request whose path the route [/bcf/{version}/auth]
    matches is answered with the literal capability record of the schema
    example: the three OAuth2 URLs, [http_basic_supported = true] and the
    three flows. *)
Theorem get_auth_response (history : list request) (p : string)
    (ps : list (string * string)) :
  accepts_module_urls →
  path_match auth_template p = Some ps →
  (serve (GET p) (serve_all history module_globals).2).1
  = JSONResponse 200 auth_body.
Proof.
  intros Hurls Hp. rewrite serve_all_globals, (serve_auth p ps) by done.
  cbn [fst cur_example module_globals].
  by rewrite parse_example.
Qed.

(** C3 (as amended). For any two non-empty strings [v1] and [v2] without a
    slash, meaningful or not, the requests [GET /bcf/v1/auth] and
    [GET /bcf/v2/auth] are both answered with status 200 and the same body:
    the response does not depend on the version segment. *)
Theorem get_auth_ignores_version (history1 history2 : list request)
    (v1 v2 : string) :
  accepts_module_urls →
  is_segment v1 = true →
  is_segment v2 = true →
  ∃ body,
    (serve (GET ("/bcf/" +:+ v1 +:+ "/auth"))
       (serve_all history1 module_globals).2).1 = JSONResponse 200 body ∧
    (serve (GET ("/bcf/" +:+ v2 +:+ "/auth"))
       (serve_all history2 module_globals).2).1 = JSONResponse 200 body.
Proof.
  intros Hurls Hv1%path_match_auth_segment Hv2%path_match_auth_segment.
  exists auth_body. rewrite !serve_all_globals.
  rewrite (serve_auth _ _ _ Hv1), (serve_auth _ _ _ Hv2).
  cbn [fst cur_example module_globals].
  by rewrite parse_example.
Qed.

(** C4. If some entry of the version table has a [detailed_version] that
    fails the URL validation, a GET request to [/bcf/versions] is answered
    with the server error 500 and no entry is returned; if every entry of
    the table is well-formed the request succeeds with status 200 and the
    encoded entries. *)
Theorem get_versions_validation (g : Globals) :
  ((∃ item v, item ∈ cur_fake_db g ∧
              item !! "detailed_version" = Some v ∧ AnyHttpUrl v = None) →
   (serve (GET "/bcf/versions") g).1
   = PlainTextResponse 500 "Internal Server Error") ∧
  (Forall well_formed_entry (cur_fake_db g) →
   ∃ vs, mapM Version_parse (cur_fake_db g) = Some vs ∧
         (serve (GET "/bcf/versions") g).1
         = JSONResponse 200 (Versions_json false {| versions := vs |})).
Proof.
  rewrite serve_versions. cbn [fst]. split.
  - intros (item & v & Hin & Hdv & Hv).
    assert (mapM Version_parse (cur_fake_db g) = None) as ->; [|done].
    apply mapM_None, Exists_exists. exists item. split; [done|].
    by apply (Version_parse_bad_url item v).
  - intros Hwf.
    assert (is_Some (mapM Version_parse (cur_fake_db g))) as [vs Hvs].
    { apply mapM_is_Some. eapply Forall_impl; [exact Hwf|].
      intros item. apply Version_parse_well_formed. }
    exists vs. by rewrite Hvs.
Qed.

(** C6 (as amended). A GET request whose path matches none of the registered
    routes (the two API routes and the four routes FastAPI registers for the
    OpenAPI schema and the documentation pages), and whose path with the
    trailing slash toggled matches none of them either, is answered with
    status 404. *)
Theorem unknown_route_404 (g : Globals) (p : string) :
  Forall (λ t, matches_template t p = false) registered_paths →
  (p = "/" ∨
   Forall (λ t, matches_template t (redirect_path p) = false) registered_paths) →
  (serve (GET p) g).1 = JSONResponse 404 (detail "Not Found").
Proof.
  intros Hp Hslash.
  assert (∀ q, Forall (λ t, matches_template t q = false) registered_paths →
               Forall (λ r, no_path_match r q) app) as Hroutes.
  { intros q Hq. rewrite <- app_paths in Hq. apply Forall_fmap in Hq.
    eapply Forall_impl; [exact Hq|]. intros r. apply matches_path_false. }
  unfold serve, Router_call.
  rewrite (select_NoMatch app (GET p)) by (by apply Hroutes).
  destruct Hslash as [->|Hslash]; [done|].
  cbn [path GET]. rewrite existsb_matches_path_false by (by apply Hroutes).
  by rewrite andb_false_r.
Qed.

(** C7. In any sequence of requests, two occurrences of the same request
    receive the same response: what was served in between leaves no trace. *)
Theorem repeated_request_same_response (g : Globals) (reqs : list request)
    (i j : nat) (req : request) :
  reqs !! i = Some req →
  reqs !! j = Some req →
  ∃ r, (serve_all reqs g).1 !! i = Some r ∧ (serve_all reqs g).1 !! j = Some r.
Proof.
  intros Hi Hj. exists (serve req g).1.
  by rewrite serve_all_responses, !list_lookup_fmap, Hi, Hj.
Qed.

(** C8. In every response to a GET request the auth route matches,
    [oauth2_auth_url] is present if and only if [oauth2_token_url] is; when
    the request succeeds both are present. *)
Theorem oauth2_urls_paired (history : list request) (p : string)
    (ps : list (string * string)) :
  path_match auth_template p = Some ps →
  let r := (serve (GET p) (serve_all history module_globals).2).1 in
  (response_present "oauth2_auth_url" r ↔ response_present "oauth2_token_url" r) ∧
  (status_code r = 200 →
   response_present "oauth2_auth_url" r ∧ response_present "oauth2_token_url" r).
Proof.
  intros Hp r. subst r. rewrite serve_all_globals, (serve_auth p ps) by done.
  cbn [fst cur_example module_globals].
  destruct (AuthenticationInGet_parse AuthenticationInGet_example) as [a|] eqn:Ha.
  - assert (∀ k, k ∈ auth_fields →
              is_Some (AuthenticationInGet_example !! k) →
              response_present k
                (JSONResponse 200 (AuthenticationInGet_json false a))) as Hk.
    { intros k Hf Hex. exists (AuthenticationInGet_json false a).
      split; [done|].
      destruct (AuthenticationInGet_json_member a k Hf) as [v Hv].
      exists v. split; [done|]. intros ->.
      apply (AuthenticationInGet_json_null _ _ _ Ha Hf) in Hv.
      rewrite Hv in Hex. by destruct Hex. }
    assert (response_present "oauth2_auth_url"
              (JSONResponse 200 (AuthenticationInGet_json false a)))
      by (apply Hk; [unfold auth_fields; set_solver | by eexists]).
    assert (response_present "oauth2_token_url"
              (JSONResponse 200 (AuthenticationInGet_json false a)))
      by (apply Hk; [unfold auth_fields; set_solver | by eexists]).
    tauto.
  - split; [|done]. split; intros (j & [=] & _).
Qed.

(** C9. No request changes the module globals: the version table and the
    schema example are the same after a request as before it, for a single
    request and for any sequence of requests. *)
Theorem handlers_preserve_globals (g : Globals) (req : request)
    (reqs : list request) :
  (serve req g).2 = g ∧
  cur_fake_db (serve req g).2 = cur_fake_db g ∧
  (serve_all reqs g).2 = g.
Proof.
  rewrite serve_globals, serve_all_globals. done.
Qed.

End Endpoints.

(** * The endpoints on concrete inputs *)

(** The versions endpoint after two other requests. *)
Lemma get_versions_response_witness :
  @accepts_module_urls exact_validators ∧
  (@serve exact_validators (GET "/bcf/versions")
     (@serve_all exact_validators [GET "/docs"; GET "/bcf/2.1/auth"]
        module_globals).2).1
  = JSONResponse 200 versions_body.
Proof.
  split; [repeat constructor|].
  apply (@get_versions_response exact_validators). repeat constructor.
Defined.

(** The auth endpoint for version 2.1 after a request to the versions
    endpoint. *)
Lemma get_auth_response_witness :
  path_match auth_template "/bcf/2.1/auth" = Some [("version", "2.1")] ∧
  (@serve exact_validators (GET "/bcf/2.1/auth")
     (@serve_all exact_validators [GET "/bcf/versions"] module_globals).2).1
  = JSONResponse 200 auth_body.
Proof.
  split; [reflexivity|].
  apply (@get_auth_response exact_validators _ _ [("version", "2.1")]);
    [repeat constructor | reflexivity].
Defined.

(** The segments xyz and 2.1. *)
Lemma get_auth_ignores_version_witness :
  ∃ body,
    (@serve exact_validators (GET ("/bcf/" +:+ "xyz" +:+ "/auth"))
       (@serve_all exact_validators [] module_globals).2).1
    = JSONResponse 200 body ∧
    (@serve exact_validators (GET ("/bcf/" +:+ "2.1" +:+ "/auth"))
       (@serve_all exact_validators [GET "/bcf/xyz/auth"] module_globals).2).1
    = JSONResponse 200 body.
Proof.
  apply (@get_auth_ignores_version exact_validators [] [GET "/bcf/xyz/auth"]
           "xyz" "2.1"); [repeat constructor | reflexivity | reflexivity].
Defined.

(** A table with a link that has no scheme, and the module's own table. *)
Lemma get_versions_validation_witness :
  (@serve exact_validators (GET "/bcf/versions") malformed_globals).1
  = PlainTextResponse 500 "Internal Server Error" ∧
  ∃ vs, mapM (@Version_parse exact_validators) fake_db = Some vs ∧
        (@serve exact_validators (GET "/bcf/versions") module_globals).1
        = JSONResponse 200 (Versions_json false {| versions := vs |}).
Proof.
  split.
  - apply (proj1 (@get_versions_validation exact_validators malformed_globals)).
    eexists _, (PyStr "BuildingSMART/BCF-API").
    split; [by left|]. split; reflexivity.
  - apply (proj2 (@get_versions_validation exact_validators module_globals)).
    repeat apply Forall_cons_2; [..|apply Forall_nil_2];
      (split; [by eexists _, _ | right; by eexists _, _]).
Defined.

(** The path [/bcf/unknown]. *)
Lemma unknown_route_404_witness :
  (@serve exact_validators (GET "/bcf/unknown") module_globals).1
  = JSONResponse 404 (detail "Not Found").
Proof.
  apply (@unknown_route_404 exact_validators module_globals "/bcf/unknown").
  - repeat constructor.
  - right. repeat constructor.
Defined.

(** The versions endpoint asked twice, with an auth request in between. *)
Lemma repeated_request_same_response_witness :
  ∃ r,
    (@serve_all exact_validators
       [GET "/bcf/versions"; GET "/bcf/xyz/auth"; GET "/bcf/versions"]
       module_globals).1 !! 0%nat = Some r ∧
    (@serve_all exact_validators
       [GET "/bcf/versions"; GET "/bcf/xyz/auth"; GET "/bcf/versions"]
       module_globals).1 !! 2%nat = Some r.
Proof.
  apply (@repeated_request_same_response exact_validators module_globals _
           0%nat 2%nat (GET "/bcf/versions")); reflexivity.
Defined.

(** The module's own payload. *)
Lemma oauth2_urls_paired_witness :
  let r := (@serve exact_validators (GET "/bcf/2.1/auth")
              (@serve_all exact_validators [] module_globals).2).1 in
  (response_present "oauth2_auth_url" r ↔ response_present "oauth2_token_url" r) ∧
  (status_code r = 200 →
   response_present "oauth2_auth_url" r ∧ response_present "oauth2_token_url" r).
Proof.
  apply (@oauth2_urls_paired exact_validators [] "/bcf/2.1/auth"
           [("version", "2.1")]). reflexivity.
Defined.

(** C3, as first stated, fails for the empty string: no route matches
    [/bcf//auth], which is answered with 404, while [/bcf/2.1/auth] is
    answered with 200. *)
Lemma empty_version_not_found :
  (@serve exact_validators (GET ("/bcf/" +:+ "" +:+ "/auth")) module_globals).1
  = JSONResponse 404 (detail "Not Found") ∧
  (@serve exact_validators (GET ("/bcf/" +:+ "2.1" +:+ "/auth")) module_globals).1
  = JSONResponse 200 auth_body.
Proof. split; reflexivity. Qed.

(** C6, as first stated, fails: [/docs] matches neither API route and is
    answered with 200, and [/bcf/versions/] matches neither and is answered
    with a redirect to [/bcf/versions]. *)
Lemma unmatched_path_not_404 :
  matches_template "/bcf/versions" "/docs" = false ∧
  matches_template "/bcf/{version}/auth" "/docs" = false ∧
  (@serve exact_validators (GET "/docs") module_globals).1
  = GeneratedResponse 200 SwaggerUI ∧
  matches_template "/bcf/versions" "/bcf/versions/" = false ∧
  matches_template "/bcf/{version}/auth" "/bcf/versions/" = false ∧
  (@serve exact_validators (GET "/bcf/versions/") module_globals).1
  = RedirectResponse 307 "/bcf/versions".
Proof. repeat split; reflexivity. Qed.

(** * Further properties of the routes *)

Lemma slash_free_app (a b : string) :
  slash_free (a +:+ b) = slash_free a && slash_free b.
Proof.
  induction a as [|c a IH]; [done|]. rewrite append_cons. simpl.
  by rewrite IH, andb_assoc.
Qed.

(** Two slash-free strings followed by a slash: the split is unique. *)
Lemma slash_split_unique (v v' a b : string) :
  slash_free v = true → slash_free v' = true →
  v +:+ String "/"%char a = v' +:+ String "/"%char b →
  v = v' ∧ a = b.
Proof.
  revert v'. induction v as [|c v IH]; intros [|c' v'] Hv Hv';
    rewrite ?append_nil_l, ?append_cons; intros Heq.
  - by injection Heq.
  - injection Heq as <- _. simpl in Hv'. done.
  - injection Heq as -> _. simpl in Hv. done.
  - injection Heq as -> Heq. simpl in Hv, Hv'.
    apply andb_true_iff in Hv as [_ Hv]. apply andb_true_iff in Hv' as [_ Hv'].
    destruct (IH v' Hv Hv' Heq) as [-> ->]. done.
Qed.

(** What the parameter took when [capture] succeeds. *)
Lemma capture_inv {A : Type} (k : string → string → option A)
    (acc s : string) (r : A) :
  capture k acc s = Some r →
  ∃ v rest, s = v +:+ rest ∧ slash_free v = true ∧ acc +:+ v ≠ "" ∧
            k (acc +:+ v) rest = Some r.
Proof.
  revert acc. induction s as [|c s IH]; intros acc Hc.
  - simpl in Hc. exists "", "". rewrite append_nil_l, !append_nil_r.
    destruct acc; [done|]. done.
  - assert (match acc with "" => None | _ => k acc (String c s) end = Some r →
            ∃ v rest, String c s = v +:+ rest ∧ slash_free v = true ∧
                      acc +:+ v ≠ "" ∧ k (acc +:+ v) rest = Some r) as Hstop.
    { intros Hk. exists "", (String c s). rewrite append_nil_l, !append_nil_r.
      destruct acc; [done|]. done. }
    simpl in Hc. destruct (Ascii.eqb c "/"%char) eqn:Hslash; [by apply Hstop|].
    destruct (capture k (acc +:+ String c "") s) as [r'|] eqn:Hrec;
      [|by apply Hstop].
    injection Hc as ->. apply IH in Hrec as (v & rest & -> & Hv & Hne & Hk).
    rewrite append_assoc, append_cons, append_nil_l in Hne, Hk.
    exists (String c v), rest. rewrite append_cons. simpl. by rewrite Hslash.
Qed.

Lemma is_segment_spec (v : string) :
  is_segment v = true ↔ v ≠ "" ∧ slash_free v = true.
Proof.
  unfold is_segment. rewrite andb_true_iff, negb_true_iff.
  by rewrite String.eqb_neq.
Qed.

Lemma path_match_auth_segment_newline (v : string) :
  is_segment v = true →
  path_match auth_template ("/bcf/" +:+ v +:+ "/auth" +:+ String "010"%char "")
  = Some [("version", v)].
Proof.
  intros Hv. apply andb_true_iff in Hv as [Hne Hv].
  change auth_template with [Lit "/bcf/"; Param "version"; Lit "/auth"].
  cbn [path_match].
  assert (strip_prefix "/bcf/" ("/bcf/" +:+ v +:+ "/auth" +:+ String "010"%char "")
          = Some (v +:+ "/auth" +:+ String "010"%char "")) as ->
    by by apply strip_prefix_Some.
  cbn [mbind option_bind].
  apply capture_greedy; [done | | done].
  rewrite append_nil_l. intros ->. done.
Qed.

Lemma path_match_auth_inv (p : string) (ps : list (string * string)) :
  path_match auth_template p = Some ps →
  ∃ v, is_segment v = true ∧ ps = [("version", v)] ∧
       (p = "/bcf/" +:+ v +:+ "/auth" ∨
        p = "/bcf/" +:+ v +:+ "/auth" +:+ String "010"%char "").
Proof.
  change auth_template with [Lit "/bcf/"; Param "version"; Lit "/auth"].
  cbn [path_match]. intros Hp.
  destruct (strip_prefix "/bcf/" p) as [rest0|] eqn:Hpre; [|done].
  apply strip_prefix_Some in Hpre as ->. cbn [mbind option_bind] in Hp.
  apply capture_inv in Hp as (v & rest & -> & Hv & Hne & Hk).
  rewrite append_nil_l in Hne, Hk.
  destruct (strip_prefix "/auth" rest) as [tail|] eqn:Hauth; [|done].
  apply strip_prefix_Some in Hauth as ->. cbn [mbind option_bind] in Hk.
  destruct (at_end tail) eqn:Hend; [|done].
  injection Hk as <-. exists v. split; [by apply is_segment_spec|].
  split; [done|]. apply at_end_true in Hend as [->| ->].
  - left. by rewrite append_nil_r.
  - by right.
Qed.

Lemma select_Selected (routes : list route) (partial : option route)
    (req : request) (r : route) (ps : list (string * string)) :
  select routes partial req = Selected r ps →
  r ∈ routes ∧ matches r req = (FULL, ps).
Proof.
  revert partial. induction routes as [|r' routes IH]; intros partial Hsel.
  - simpl in Hsel. by destruct partial.
  - simpl in Hsel. destruct (matches r' req) as [[] ps'] eqn:Hm.
    + apply IH in Hsel as [? ?]. split; [by right | done].
    + apply IH in Hsel as [? ?]. split; [by right | done].
    + injection Hsel as <- <-. split; [by left | done].
Qed.

Lemma select_partial (r : route) (routes : list route) (req : request)
    (ps : list (string * string)) :
  path_match (compile_path (route_path r)) (path req) = Some ps →
  existsb (String.eqb (method req)) (route_methods r) = false →
  select (r :: routes) None req = select routes (Some r) req.
Proof. intros Hr Hm. simpl. unfold matches. by rewrite Hr, Hm. Qed.

Lemma matches_FULL (r : route) (req : request) (ps : list (string * string)) :
  matches r req = (FULL, ps) →
  path_match (compile_path (route_path r)) (path req) = Some ps.
Proof.
  unfold matches.
  destruct (path_match (compile_path (route_path r)) (path req)); [|done].
  by destruct (existsb _ _); intros [= <-].
Qed.

Lemma endswith_slash_app (s : string) : endswith_slash (s +:+ "/") = true.
Proof.
  induction s as [|c s IH]; [done|]. rewrite append_cons. simpl.
  destruct (s +:+ "/") eqn:Hs; [by destruct s | done].
Qed.

Lemma rstrip_slash_app (s : string) (c : ascii) :
  Ascii.eqb c "/"%char = false →
  rstrip_slash (s +:+ String c "/") = s +:+ String c "".
Proof.
  intros Hc. induction s as [|a s IH].
  - rewrite !append_nil_l. simpl. by rewrite Hc.
  - rewrite !append_cons. simpl. rewrite IH.
    destruct (s +:+ String c "") eqn:Hs; [by destruct s | done].
Qed.

Section Routes.
Context `{Pydantic}.

Lemma app_route_by_name (r : route) :
  r ∈ app →
  (route_name r = "get_versions" → route_path r = "/bcf/versions") ∧
  (route_name r = "get_auth" → route_path r = "/bcf/{version}/auth").
Proof.
  unfold app, FastAPI_setup, include_router, router.
  cbn [fmap list_fmap List.app]. rewrite !elem_of_cons, elem_of_nil.
  intros [->|[->|[->|[->|[->|[->|[]]]]]]]; by split.
Qed.

Lemma select_versions (p : string) (ps : list (string * string)) :
  path_match (compile_path "/bcf/versions") p = Some ps →
  ∃ r, select app None (GET p) = Selected r ps ∧ route_name r = "get_versions".
Proof.
  intros Hp. change (compile_path "/bcf/versions") with [Lit "/bcf/versions"] in Hp.
  apply path_match_Lit in Hp as [-> [->| ->]]; by eexists.
Qed.

Lemma select_auth (p : string) (ps : list (string * string)) :
  path_match auth_template p = Some ps →
  ∃ r, select app None (GET p) = Selected r ps ∧ route_name r = "get_auth".
Proof.
  intros Hp. pose proof (auth_path_exclusive p ps Hp) as Hex.
  rewrite !Forall_cons in Hex. destruct Hex as (H1 & H2 & H3 & H4 & H5 & _).
  unfold app, FastAPI_setup, include_router, router.
  cbn [fmap list_fmap List.app].
  rewrite select_skip by exact H1. rewrite select_skip by exact H2.
  rewrite select_skip by exact H3. rewrite select_skip by exact H4.
  rewrite select_skip by exact H5.
  rewrite (select_full _ _ _ _ ps) by (exact Hp || done). by eexists.
Qed.

End Routes.

Section Methods.
Context `{Pydantic}.

Lemma api_path_cases (p : string) :
  api_path p →
  (p = "/bcf/versions" ∨ p = "/bcf/versions" +:+ String "010"%char "") ∨
  is_Some (path_match auth_template p).
Proof.
  unfold api_path, matches_template. rewrite !bool_decide_eq_true.
  intros [[ps Hp]|Hp]; [left | by right].
  change (compile_path "/bcf/versions") with [Lit "/bcf/versions"] in Hp.
  by apply path_match_Lit in Hp as [_ ?].
Qed.

Lemma method_not_GET (m : string) :
  m ≠ "GET" → existsb (String.eqb m) ["GET"] = false.
Proof. intros Hm. simpl. apply String.eqb_neq in Hm. by rewrite Hm. Qed.

(** X2. Both routes are registered with [router.get]: a request with any
    other method to a path of either route is answered with 405 and the
    handler is not run, whatever the module data (so not even a malformed
    table turns it into a 500). *)
Theorem other_method_405 (g : Globals) (m p : string) :
  m ≠ "GET" →
  api_path p →
  serve {| method := m; path := p |} g
  = (JSONResponse 405 (detail "Method Not Allowed"), g).
Proof.
  intros Hm%method_not_GET [[->| ->]|[ps Hp]]%api_path_cases.
  - unfold serve, Router_call, app, FastAPI_setup, include_router, router.
    cbn [fmap list_fmap List.app].
    do 4 (rewrite select_skip by reflexivity).
    rewrite (select_partial _ _ _ []) by (reflexivity || exact Hm).
    by rewrite select_skip by reflexivity.
  - unfold serve, Router_call, app, FastAPI_setup, include_router, router.
    cbn [fmap list_fmap List.app].
    do 4 (rewrite select_skip by reflexivity).
    rewrite (select_partial _ _ _ []) by (reflexivity || exact Hm).
    by rewrite select_skip by reflexivity.
  - pose proof (auth_path_exclusive p ps Hp) as Hex.
    rewrite !Forall_cons in Hex. destruct Hex as (H1 & H2 & H3 & H4 & H5 & _).
    unfold serve, Router_call, app, FastAPI_setup, include_router, router.
    cbn [fmap list_fmap List.app].
    rewrite select_skip by exact H1. rewrite select_skip by exact H2.
    rewrite select_skip by exact H3. rewrite select_skip by exact H4.
    rewrite select_skip by exact H5.
    by rewrite (select_partial _ _ _ ps) by (exact Hp || exact Hm).
Qed.

Lemma auth_slash_unmatched (v : string) :
  slash_free v = true →
  Forall (λ r, no_path_match r ("/bcf/" +:+ v +:+ "/auth/")) app.
Proof.
  intros Hv.
  assert (slash_free (v +:+ "/auth/") = false) as Hslash
    by (rewrite slash_free_app; apply andb_false_r).
  assert (∀ t, t ∈ ["/openapi.json"; "/docs"; "/docs/oauth2-redirect";
                    "/redoc"; "/bcf/versions"] →
               path_match [Lit t] ("/bcf/" +:+ v +:+ "/auth/") = None) as Hlit.
  { intros t Ht.
    destruct (path_match [Lit t] ("/bcf/" +:+ v +:+ "/auth/")) as [ps|] eqn:Hp;
      [|done].
    apply path_match_Lit in Hp as [_ Hp]. rewrite !append_cons, append_nil_l in Hp.
    rewrite !elem_of_cons, elem_of_nil in Ht.
    destruct Ht as [->|[->|[->|[->|[->|[]]]]]]; destruct Hp as [Hp|Hp];
      try discriminate Hp;
      injection Hp as Hp; rewrite Hp in Hslash; discriminate Hslash. }
  unfold app, FastAPI_setup, include_router, router.
  cbn [fmap list_fmap List.app].
  repeat apply Forall_cons_2; [..|apply Forall_nil_2];
    try (apply Hlit; set_solver).
  unfold no_path_match.
  change (compile_path _) with auth_template.
  destruct (path_match auth_template ("/bcf/" +:+ v +:+ "/auth/")) as [ps|] eqn:Hp;
    [|done].
  apply path_match_auth_inv in Hp as (v' & [_ Hv']%is_segment_spec & _ & Hp).
  destruct Hp as [Hp|Hp]; apply append_inv_l in Hp;
    apply (slash_split_unique v v') in Hp as [_ Hp]; done.
Qed.

(** X3. With a slash appended, the path of the auth route matches no route
    and the request is redirected (307) to the path without the slash, for
    every value of the version segment and whatever the module data. *)
Theorem auth_trailing_slash_redirected (g : Globals) (v : string) :
  is_segment v = true →
  serve (GET ("/bcf/" +:+ v +:+ "/auth/")) g
  = (RedirectResponse 307 ("/bcf/" +:+ v +:+ "/auth"), g).
Proof.
  intros Hseg. pose proof Hseg as [Hne Hv]%is_segment_spec.
  assert ("/bcf/" +:+ v +:+ "/auth/" = ("/bcf/" +:+ v +:+ "/aut") +:+ String "h"%char "/")
    as Hsplit1 by by rewrite !append_assoc.
  assert ("/bcf/" +:+ v +:+ "/auth/" = ("/bcf/" +:+ v +:+ "/auth") +:+ "/")
    as Hsplit2 by by rewrite !append_assoc.
  assert (redirect_path ("/bcf/" +:+ v +:+ "/auth/") = "/bcf/" +:+ v +:+ "/auth")
    as Hredirect.
  { unfold redirect_path. rewrite Hsplit2 at 1. rewrite endswith_slash_app.
    rewrite Hsplit1, rstrip_slash_app by done. by rewrite !append_assoc. }
  unfold serve, Router_call.
  rewrite (select_NoMatch app (GET _)) by (by apply auth_slash_unmatched).
  cbn [path GET]. rewrite Hredirect.
  assert (existsb (λ r, matches_path r ("/bcf/" +:+ v +:+ "/auth")) app = true)
    as ->.
  { apply existsb_exists.
    destruct (select_auth _ _ (path_match_auth_segment v Hseg))
      as (r & [Hin Hm%matches_FULL]%select_Selected & _).
    exists r. split; [by apply list_elem_of_In|].
    unfold matches_path, matches_template. apply bool_decide_eq_true.
    by eexists. }
  by rewrite !append_cons.
Qed.

End Methods.

(** * Further properties of the handlers *)

Section Handlers.
Context `{Pydantic}.
Implicit Types (item d : gmap string pyval).

Lemma optional_field_is_Some {A : Type} (validate : pyval → option A)
    (k : string) d :
  is_Some (optional_field validate k d) ↔
  ∀ v, d !! k = Some v → is_Some (validate v).
Proof.
  unfold optional_field. destruct (d !! k) as [w|].
  - destruct (validate w) as [a|] eqn:Hw; simpl.
    + split; [|by eexists]. intros _ v [= <-]. by rewrite Hw.
    + split; [by intros [? ?]|]. intros Hv.
      destruct (Hv w eq_refl) as [a Ha]. by rewrite Hw in Ha.
  - split; [done | by eexists].
Qed.

Lemma optional_field_value {A : Type} (validate : pyval → option A)
    (k : string) d (o : option A) (v : pyval) :
  optional_field validate k d = Some o → d !! k = Some v →
  ∃ a, validate v = Some a ∧ o = Some a.
Proof.
  unfold optional_field. intros Ho Hv. rewrite Hv in Ho.
  destruct (validate v) as [a|]; [|done]. injection Ho as <-. by exists a.
Qed.

Lemma List_str_is_Some (v : pyval) :
  is_Some (List_str v) ↔
  ∃ l, v = PyList l ∧ Forall (λ x, is_Some (str_validator x)) l.
Proof.
  destruct v as [b|s|l]; simpl.
  - split; [by intros [? ?] | by intros (? & ? & _)].
  - split; [by intros [? ?] | by intros (? & ? & _)].
  - rewrite mapM_is_Some. split; [by exists l|]. by intros (? & [= <-] & ?).
Qed.

Lemma AuthenticationInGet_parse_Some d (a : AuthenticationInGet) :
  AuthenticationInGet_parse d = Some a ↔
  optional_field AnyHttpUrl "oauth2_auth_url" d = Some (oauth2_auth_url a) ∧
  optional_field AnyHttpUrl "oauth2_token_url" d = Some (oauth2_token_url a) ∧
  optional_field AnyHttpUrl "oauth2_dynamic_client_reg_url" d
    = Some (oauth2_dynamic_client_reg_url a) ∧
  optional_field bool_validator "http_basic_supported" d
    = Some (http_basic_supported a) ∧
  optional_field List_str "supported_oauth2_flows" d
    = Some (supported_oauth2_flows a).
Proof.
  unfold AuthenticationInGet_parse. split.
  - intros Ha.
    destruct (optional_field AnyHttpUrl "oauth2_auth_url" d); [|done].
    destruct (optional_field AnyHttpUrl "oauth2_token_url" d); [|done].
    destruct (optional_field AnyHttpUrl "oauth2_dynamic_client_reg_url" d);
      [|done].
    destruct (optional_field bool_validator "http_basic_supported" d); [|done].
    destruct (optional_field List_str "supported_oauth2_flows" d); [|done].
    by injection Ha as <-.
  - intros (-> & -> & -> & -> & ->). by destruct a.
Qed.

Lemma AuthenticationInGet_parse_well_formed d :
  well_formed_payload d ↔ is_Some (AuthenticationInGet_parse d).
Proof.
  unfold well_formed_payload, url_fields. split.
  - intros (Hurl & Hbool & Hflows).
    assert (∀ k, k ∈ ["oauth2_auth_url"; "oauth2_token_url";
                      "oauth2_dynamic_client_reg_url"] →
                 is_Some (optional_field AnyHttpUrl k d)) as Hu.
    { intros k Hk. apply optional_field_is_Some. intros v. by apply Hurl. }
    destruct (Hu "oauth2_auth_url") as [o1 H1]; [set_solver|].
    destruct (Hu "oauth2_token_url") as [o2 H2]; [set_solver|].
    destruct (Hu "oauth2_dynamic_client_reg_url") as [o3 H3]; [set_solver|].
    destruct (proj2 (optional_field_is_Some bool_validator
                       "http_basic_supported" d) Hbool) as [o4 H4].
    destruct (proj2 (optional_field_is_Some List_str
                       "supported_oauth2_flows" d)) as [o5 H5].
    { intros v Hv. apply List_str_is_Some. by apply Hflows. }
    exists {| oauth2_auth_url := o1; oauth2_token_url := o2;
              oauth2_dynamic_client_reg_url := o3; http_basic_supported := o4;
              supported_oauth2_flows := o5 |}.
    by apply AuthenticationInGet_parse_Some.
  - intros [a (H1 & H2 & H3 & H4 & H5)%AuthenticationInGet_parse_Some].
    split_and!.
    + intros k v Hk. rewrite !elem_of_cons, elem_of_nil in Hk.
      destruct Hk as [->|[->|[->|[]]]];
        eapply optional_field_is_Some; by eexists.
    + eapply optional_field_is_Some; by eexists.
    + intros v Hv. apply List_str_is_Some.
      eapply optional_field_is_Some; [by eexists | done].
Qed.

Lemma Version_parse_same item item' :
  same_Version_kwargs item item' → Version_parse item = Version_parse item'.
Proof.
  intros [Hid Hdv]. unfold Version_parse, required_field, optional_field.
  by rewrite Hid, Hdv.
Qed.

Lemma AuthenticationInGet_parse_same d d' :
  same_AuthenticationInGet_kwargs d d' →
  AuthenticationInGet_parse d = AuthenticationInGet_parse d'.
Proof.
  intros Hsame. unfold AuthenticationInGet_parse, optional_field.
  rewrite !(Hsame _) by (unfold auth_fields; set_solver). done.
Qed.

(** X4. [GET /bcf/versions] is answered with 200 exactly when every entry of
    the table is well-formed, and with the 500 error otherwise; an entry
    without [version_id], a field declared without default, is one way to
    get the error. *)
Theorem get_versions_status (g : Globals) :
  (status_code (serve (GET "/bcf/versions") g).1 = 200 ↔
   Forall well_formed_entry (cur_fake_db g)) ∧
  (¬ Forall well_formed_entry (cur_fake_db g) →
   (serve (GET "/bcf/versions") g).1
   = PlainTextResponse 500 "Internal Server Error") ∧
  ((∃ item, item ∈ cur_fake_db g ∧ item !! "version_id" = None) →
   (serve (GET "/bcf/versions") g).1
   = PlainTextResponse 500 "Internal Server Error").
Proof.
  rewrite serve_versions. cbn [fst].
  assert (Forall well_formed_entry (cur_fake_db g) ↔
          is_Some (mapM Version_parse (cur_fake_db g))) as Hwf.
  { rewrite mapM_is_Some. apply Forall_proper; [|done].
    intros item. apply Version_parse_well_formed. }
  rewrite Hwf.
  destruct (mapM Version_parse (cur_fake_db g)) as [vs|] eqn:Hvs; simpl.
  - split_and!.
    + split; [by eexists | done].
    + intros Hno. destruct Hno. by eexists.
    + intros (item & Hin & Hid). apply mapM_Some in Hvs.
      apply Forall2_Forall_l with (Q := λ item, is_Some (Version_parse item))
        in Hvs; [|apply Forall_true; by eexists].
      rewrite Forall_forall in Hvs.
      destruct (Hvs item Hin) as [v Hv]. unfold Version_parse, required_field in Hv.
      by rewrite Hid in Hv.
  - split_and!; [|done..]. split; [done | by intros [? ?]].
Qed.

(** X5. A successful answer of [GET /bcf/versions] lists the table entry by
    entry, in table order: its body is the object with the one member
    [versions], and each element is the object made of the validated
    [version_id] and of the validated [detailed_version], or [null] where
    the entry gives none. *)
Theorem get_versions_follows_table (g : Globals) (jv : json) :
  (serve (GET "/bcf/versions") g).1 = JSONResponse 200 jv →
  ∃ entries, jv = JObject [("versions", JArray entries)] ∧
    Forall2 (λ item entry,
      ∃ v s dv, item !! "version_id" = Some v ∧ str_validator v = Some s ∧
        entry = JObject [("version_id", JString s); ("detailed_version", dv)] ∧
        match item !! "detailed_version" with
        | None => dv = JNull
        | Some w => ∃ u, AnyHttpUrl w = Some u ∧ dv = JString u
        end)
      (cur_fake_db g) entries.
Proof.
  rewrite serve_versions. cbn [fst].
  destruct (mapM Version_parse (cur_fake_db g)) as [vs|] eqn:Hvs; [|done].
  intros [= <-]. exists (Version_json false <$> vs). split; [done|].
  apply mapM_Some in Hvs. apply Forall2_fmap_r.
  eapply Forall2_impl; [exact Hvs|]. intros item vr Hvr. simpl in Hvr.
  unfold Version_parse in Hvr.
  destruct (required_field str_validator "version_id" item) as [s|] eqn:Hs;
    [|done].
  apply required_field_Some in Hs as (v & Hv & Hs). simpl in Hvr.
  destruct (optional_field AnyHttpUrl "detailed_version" item) as [o|] eqn:Ho;
    [|done].
  injection Hvr as <-.
  exists v, s, (null_or JString o).
  split_and!; [done | done | apply Version_json_members |].
  destruct (item !! "detailed_version") as [w|] eqn:Hw.
  - destruct (optional_field_value _ _ _ _ _ Ho Hw) as (u & Hu & ->).
    by exists u.
  - rewrite optional_field_absent in Ho by done. by injection Ho as <-.
Qed.

End Handlers.

Section Payload.
Context `{Pydantic}.
Implicit Types (item d : gmap string pyval).

Lemma present_iff_given d (a : AuthenticationInGet) (k : string) :
  AuthenticationInGet_parse d = Some a →
  k ∈ auth_fields →
  present k (AuthenticationInGet_json false a) ↔ is_Some (d !! k).
Proof.
  intros Ha Hk. pose proof (AuthenticationInGet_json_null d a k Ha Hk) as Hnull.
  destruct (AuthenticationInGet_json_member a k Hk) as [v Hv].
  unfold present. rewrite Hv in *. split.
  - intros (v' & [= <-] & Hne). apply not_eq_None_Some. intros Hnone.
    apply Hnull in Hnone. congruence.
  - intros Hsome. exists v. split; [done|]. intros ->.
    apply not_eq_None_Some in Hsome. apply Hsome, Hnull. done.
Qed.

Lemma mapM_Version_parse_same (db db' : list (gmap string pyval)) :
  Forall2 same_Version_kwargs db db' →
  mapM Version_parse db = mapM Version_parse db'.
Proof.
  induction 1 as [|item item' db db' Hsame _ IH]; [done|].
  cbn [mapM]. by rewrite (Version_parse_same item item'), IH.
Qed.

(** X6. A GET request to the auth route is answered with 200 exactly when
    every field the payload gives passes the validator of its type (no
    field has to be given), and with the 500 error otherwise: the dict
    [get_auth] returns is validated against [AuthenticationInGet] before it
    is sent. *)
Theorem get_auth_status (g : Globals) (p : string)
    (ps : list (string * string)) :
  path_match auth_template p = Some ps →
  (status_code (serve (GET p) g).1 = 200 ↔ well_formed_payload (cur_example g)) ∧
  (¬ well_formed_payload (cur_example g) →
   (serve (GET p) g).1 = PlainTextResponse 500 "Internal Server Error").
Proof.
  intros Hp. rewrite (serve_auth p ps) by done. cbn [fst].
  rewrite AuthenticationInGet_parse_well_formed.
  destruct (AuthenticationInGet_parse (cur_example g)) as [a|]; simpl.
  - split; [by split; [eexists|] |]. intros Hno. destruct Hno. by eexists.
  - split; [|done]. split; [done | by intros [? ?]].
Qed.

(** X7. In a successful answer of the auth route each field the payload
    gives carries the validated value: the URL that [AnyHttpUrl] returned,
    the boolean, the list of flows in order. *)
Theorem get_auth_follows_payload (g : Globals) (p : string)
    (ps : list (string * string)) (ja : json) :
  path_match auth_template p = Some ps →
  (serve (GET p) g).1 = JSONResponse 200 ja →
  (∀ k v, k ∈ url_fields → cur_example g !! k = Some v →
     ∃ u, AnyHttpUrl v = Some u ∧ json_get k ja = Some (JString u)) ∧
  (∀ v, cur_example g !! "http_basic_supported" = Some v →
     ∃ b, bool_validator v = Some b ∧
          json_get "http_basic_supported" ja = Some (JBool b)) ∧
  (∀ v, cur_example g !! "supported_oauth2_flows" = Some v →
     ∃ l, List_str v = Some l ∧
          json_get "supported_oauth2_flows" ja = Some (JArray (JString <$> l))).
Proof.
  intros Hp. rewrite (serve_auth p ps) by done. cbn [fst].
  destruct (AuthenticationInGet_parse (cur_example g)) as [a|] eqn:Ha; [|done].
  intros [= <-]. rewrite AuthenticationInGet_json_members.
  apply AuthenticationInGet_parse_Some in Ha as (H1 & H2 & H3 & H4 & H5).
  split_and!.
  - intros k v Hk Hv. unfold url_fields in Hk.
    rewrite !elem_of_cons, elem_of_nil in Hk.
    destruct Hk as [->|[->|[->|[]]]].
    + destruct (optional_field_value _ _ _ _ _ H1 Hv) as (u & Hu & ->).
      by exists u.
    + destruct (optional_field_value _ _ _ _ _ H2 Hv) as (u & Hu & ->).
      by exists u.
    + destruct (optional_field_value _ _ _ _ _ H3 Hv) as (u & Hu & ->).
      by exists u.
  - intros v Hv.
    destruct (optional_field_value _ _ _ _ _ H4 Hv) as (b & Hb & ->).
    by exists b.
  - intros v Hv.
    destruct (optional_field_value _ _ _ _ _ H5 Hv) as (l & Hl & ->).
    by exists l.
Qed.

(** X8. The rule of the docstring, [oauth2_auth_url] present if and only if
    [oauth2_token_url] present, is not checked: in a successful answer a
    field is present exactly when the payload gives it, so the answer
    keeps the rule exactly when the payload does. *)
Theorem pairing_not_enforced (g : Globals) (p : string)
    (ps : list (string * string)) (ja : json) :
  path_match auth_template p = Some ps →
  (serve (GET p) g).1 = JSONResponse 200 ja →
  (∀ k, k ∈ auth_fields → present k ja ↔ is_Some (cur_example g !! k)) ∧
  ((present "oauth2_auth_url" ja ↔ present "oauth2_token_url" ja) ↔
   (is_Some (cur_example g !! "oauth2_auth_url") ↔
    is_Some (cur_example g !! "oauth2_token_url"))).
Proof.
  intros Hp. rewrite (serve_auth p ps) by done. cbn [fst].
  destruct (AuthenticationInGet_parse (cur_example g)) as [a|] eqn:Ha; [|done].
  intros [= <-].
  assert (∀ k, k ∈ auth_fields →
            present k (AuthenticationInGet_json false a) ↔
            is_Some (cur_example g !! k)) as Hgiven
    by (intros k Hk; by apply present_iff_given).
  split; [exact Hgiven|].
  rewrite (Hgiven "oauth2_auth_url"), (Hgiven "oauth2_token_url")
    by (unfold auth_fields; repeat constructor).
  done.
Qed.

(** X9. The answers depend on the module data only through the keys that
    name a field: two tables whose entries agree pairwise on [version_id]
    and [detailed_version] give the same answer to [GET /bcf/versions],
    whatever else the entries and the payload hold; two payloads that agree
    on the five fields give the same answer on the auth route, whatever the
    table holds. *)
Theorem only_declared_keys_matter (g g' : Globals) (p : string)
    (ps : list (string * string)) :
  path_match auth_template p = Some ps →
  (Forall2 same_Version_kwargs (cur_fake_db g) (cur_fake_db g') →
   (serve (GET "/bcf/versions") g).1 = (serve (GET "/bcf/versions") g').1) ∧
  (same_AuthenticationInGet_kwargs (cur_example g) (cur_example g') →
   (serve (GET p) g).1 = (serve (GET p) g').1).
Proof.
  intros Hp. rewrite !serve_versions, !(serve_auth p ps) by done. cbn [fst].
  split.
  - intros Hsame. by rewrite (mapM_Version_parse_same _ _ Hsame).
  - intros Hsame. by rewrite (AuthenticationInGet_parse_same _ _ Hsame).
Qed.

End Payload.

(** * The further properties on concrete inputs *)

(** A POST to the versions path while the table is malformed. *)
Lemma other_method_405_witness :
  @serve exact_validators {| method := "POST"; path := "/bcf/versions" |}
    malformed_globals
  = (JSONResponse 405 (detail "Method Not Allowed"), malformed_globals).
Proof.
  apply (@other_method_405 exact_validators malformed_globals "POST"
           "/bcf/versions"); [done | by left].
Defined.

(** The auth path for version 2.1 with a slash appended. *)
Lemma auth_trailing_slash_redirected_witness :
  @serve exact_validators (GET ("/bcf/" +:+ "2.1" +:+ "/auth/")) module_globals
  = (RedirectResponse 307 ("/bcf/" +:+ "2.1" +:+ "/auth"), module_globals).
Proof.
  apply (@auth_trailing_slash_redirected exact_validators module_globals "2.1").
  reflexivity.
Defined.

(** A table whose second entry has no [version_id]. *)
Lemma get_versions_status_witness :
  (@serve exact_validators (GET "/bcf/versions") missing_id_globals).1
  = PlainTextResponse 500 "Internal Server Error".
Proof.
  apply (proj2 (proj2 (@get_versions_status exact_validators missing_id_globals))).
  eexists. split; [right; left | reflexivity].
Defined.

(** A table entry without a link. *)
Lemma get_versions_follows_table_witness :
  ∃ jv entries,
    (@serve exact_validators (GET "/bcf/versions") sparse_globals).1
    = JSONResponse 200 jv ∧
    jv = JObject [("versions", JArray entries)] ∧
    Forall2 (λ item entry,
      ∃ v s dv, item !! "version_id" = Some v ∧ exact_str v = Some s ∧
        entry = JObject [("version_id", JString s); ("detailed_version", dv)] ∧
        match item !! "detailed_version" with
        | None => dv = JNull
        | Some w => ∃ u, @AnyHttpUrl exact_validators w = Some u ∧ dv = JString u
        end)
      (cur_fake_db sparse_globals) entries.
Proof.
  eexists.
  destruct (@get_versions_follows_table exact_validators sparse_globals _
              eq_refl) as (entries & Hjv & Hentries).
  exists entries. split; [reflexivity|]. by split.
Defined.

(** A payload with one of the five fields. *)
Lemma get_auth_status_witness :
  status_code (@serve exact_validators (GET "/bcf/2.1/auth") sparse_globals).1
  = 200 ↔ @well_formed_payload exact_validators (cur_example sparse_globals).
Proof.
  apply (proj1 (@get_auth_status exact_validators sparse_globals
                  "/bcf/2.1/auth" [("version", "2.1")] eq_refl)).
Defined.

(** The module's own payload. *)
Lemma get_auth_follows_payload_witness :
  (∃ u, @AnyHttpUrl exact_validators
          (PyStr "https://example.com/bcf/oauth2/token") = Some u ∧
        json_get "oauth2_token_url" auth_body = Some (JString u)) ∧
  (∃ b, exact_bool (PyBool true) = Some b ∧
        json_get "http_basic_supported" auth_body = Some (JBool b)).
Proof.
  destruct (@get_auth_follows_payload exact_validators module_globals
              "/bcf/2.1/auth" [("version", "2.1")] auth_body eq_refl eq_refl)
    as (Hurl & Hbool & _).
  split.
  - apply Hurl; [unfold url_fields; repeat constructor | reflexivity].
  - apply Hbool. reflexivity.
Defined.

(** A payload that gives [oauth2_auth_url] without [oauth2_token_url] is
    served as it is. *)
Lemma pairing_not_enforced_witness :
  ∃ ja,
    (@serve exact_validators (GET "/bcf/2.1/auth") unpaired_globals).1
    = JSONResponse 200 ja ∧
    present "oauth2_auth_url" ja ∧ ¬ present "oauth2_token_url" ja.
Proof.
  eexists. split; [reflexivity|].
  destruct (@pairing_not_enforced exact_validators unpaired_globals
              "/bcf/2.1/auth" [("version", "2.1")] _ eq_refl eq_refl)
    as [Hgiven _].
  split.
  - apply Hgiven; [unfold auth_fields; repeat constructor | by eexists].
  - intros Hp. apply Hgiven in Hp; [|unfold auth_fields; repeat constructor].
    destruct Hp as [v Hv]. vm_compute in Hv. discriminate Hv.
Defined.

(** The module data with a key added to a table entry and to the payload. *)
Lemma only_declared_keys_matter_witness :
  (@serve exact_validators (GET "/bcf/versions") annotated_globals).1
  = (@serve exact_validators (GET "/bcf/versions") module_globals).1 ∧
  (@serve exact_validators (GET "/bcf/2.1/auth") annotated_globals).1
  = (@serve exact_validators (GET "/bcf/2.1/auth") module_globals).1.
Proof.
  destruct (@only_declared_keys_matter exact_validators annotated_globals
              module_globals "/bcf/2.1/auth" [("version", "2.1")] eq_refl)
    as [Hv Ha].
  split.
  - apply Hv. repeat constructor.
  - apply Ha. intros k Hk. unfold auth_fields in Hk.
    rewrite !elem_of_cons, elem_of_nil in Hk.
    destruct Hk as [->|[->|[->|[->|[->|[]]]]]]; reflexivity.
Defined.

(** * What the responses leave out, and which handler answers *)



Section Omission.
Context `{Pydantic}.




(** C10 (as amended). A GET request to [/bcf/versions] is answered by the
    versions handler and is not matched by the route [/bcf/{version}/auth]:
    the two templates match no path in common, as the auth template asks
    for a further segment [auth], so the request is answered by the
    versions handler with the two routes registered in either order. *)
Theorem versions_route_unambiguous (g : Globals) :
  serve (GET "/bcf/versions") g
  = ServerErrorMiddleware (endpoint versions_route []) g ∧
  (∃ r, select app None (GET "/bcf/versions") = Selected r [] ∧
        route_name r = "get_versions" ∧
        endpoint r = endpoint versions_route) ∧
  path_match auth_template "/bcf/versions" = None ∧
  (∀ p, matches_template "/bcf/versions" p = true →
        path_match auth_template p = None) ∧
  ServerErrorMiddleware (Router_call swapped_app (GET "/bcf/versions")) g
  = ServerErrorMiddleware (endpoint versions_route []) g.
Proof.
  split_and!; [done| |done| |done].
  - eexists. split; [reflexivity|]. done.
  - intros p Hp.
    destruct (path_match auth_template p) as [ps|] eqn:Hauth; [|done].
    apply auth_path_exclusive in Hauth. rewrite !Forall_cons in Hauth.
    destruct Hauth as (_ & _ & _ & _ & Hversions & _).
    unfold matches_template in Hp. apply bool_decide_eq_true in Hp.
    rewrite Hversions in Hp. by destruct Hp.
Qed.

Lemma select_versions_endpoint (p : string) :
  p = "/bcf/versions" ∨ p = "/bcf/versions" +:+ String "010"%char "" →
  ∃ r, select app None (GET p) = Selected r [] ∧
       route_name r = "get_versions" ∧ endpoint r = endpoint versions_route.
Proof. intros [->| ->]; by eexists. Qed.

Lemma select_auth_endpoint (p : string) (ps : list (string * string)) :
  path_match auth_template p = Some ps →
  ∃ r, select app None (GET p) = Selected r ps ∧
       route_name r = "get_auth" ∧ endpoint r = endpoint auth_route.
Proof.
  intros Hp. pose proof (auth_path_exclusive p ps Hp) as Hex.
  rewrite !Forall_cons in Hex. destruct Hex as (H1 & H2 & H3 & H4 & H5 & _).
  unfold app, FastAPI_setup, include_router, router.
  cbn [fmap list_fmap List.app].
  rewrite select_skip by exact H1. rewrite select_skip by exact H2.
  rewrite select_skip by exact H3. rewrite select_skip by exact H4.
  rewrite select_skip by exact H5.
  rewrite (select_full _ _ _ _ ps) by (exact Hp || done). by eexists.
Qed.

Lemma serve_Selected (g : Globals) (req : request) (r : route)
    (ps : list (string * string)) :
  select app None req = Selected r ps →
  serve req g = ServerErrorMiddleware (endpoint r ps) g.
Proof. intros Hsel. unfold serve, Router_call. by rewrite Hsel. Qed.

(** X1. A GET request is answered by [get_versions] when its path is
    [/bcf/versions], and by [get_auth] when its path is [/bcf/v/auth] for a
    non-empty [v] without a slash, which is then the value of the [version]
    parameter (in both cases a final newline is tolerated, as the compiled
    expressions end in [$]); the router selects these two routes for no
    other path, so the handlers are reachable only under the prefix [/bcf];
    and the response is always that of the endpoint the router selected. *)
Theorem handler_paths (g : Globals) (p : string) (ps : list (string * string)) :
  ((∃ r, select app None (GET p) = Selected r ps ∧
         route_name r = "get_versions") ↔
   ps = [] ∧ (p = "/bcf/versions" ∨
              p = "/bcf/versions" +:+ String "010"%char "")) ∧
  ((∃ r, select app None (GET p) = Selected r ps ∧ route_name r = "get_auth") ↔
   ∃ v, is_segment v = true ∧ ps = [("version", v)] ∧
        (p = "/bcf/" +:+ v +:+ "/auth" ∨
         p = "/bcf/" +:+ v +:+ "/auth" +:+ String "010"%char "")) ∧
  (p = "/bcf/versions" ∨ p = "/bcf/versions" +:+ String "010"%char "" →
   serve (GET p) g = ServerErrorMiddleware (endpoint versions_route []) g) ∧
  (∀ v, is_segment v = true →
        p = "/bcf/" +:+ v +:+ "/auth" ∨
        p = "/bcf/" +:+ v +:+ "/auth" +:+ String "010"%char "" →
   serve (GET p) g
   = ServerErrorMiddleware (endpoint auth_route [("version", v)]) g) ∧
  (∀ r, select app None (GET p) = Selected r ps →
        serve (GET p) g = ServerErrorMiddleware (endpoint r ps) g).
Proof.
  split_and!.
  - split.
    + intros (r & Hsel & Hname).
      apply select_Selected in Hsel as [Hin Hm%matches_FULL].
      apply app_route_by_name in Hin as [Hv _]. rewrite (Hv Hname) in Hm.
      by apply path_match_Lit in Hm.
    + intros [-> Hp]. destruct (select_versions_endpoint p Hp) as (r & ? & ? & _).
      by exists r.
  - split.
    + intros (r & Hsel & Hname).
      apply select_Selected in Hsel as [Hin Hm%matches_FULL].
      apply app_route_by_name in Hin as [_ Ha]. rewrite (Ha Hname) in Hm.
      by apply path_match_auth_inv.
    + intros (v & Hv & -> & Hp).
      assert (path_match auth_template p = Some [("version", v)]) as Hm.
      { destruct Hp as [->| ->];
          [by apply path_match_auth_segment
          | by apply path_match_auth_segment_newline]. }
      destruct (select_auth_endpoint p _ Hm) as (r & ? & ? & _). by exists r.
  - intros Hp. destruct (select_versions_endpoint p Hp) as (r & Hsel & _ & Hend).
    by rewrite (serve_Selected g _ r [] Hsel), Hend.
  - intros v Hv Hp.
    assert (path_match auth_template p = Some [("version", v)]) as Hm.
    { destruct Hp as [->| ->];
        [by apply path_match_auth_segment
        | by apply path_match_auth_segment_newline]. }
    destruct (select_auth_endpoint p _ Hm) as (r & Hsel & _ & Hend).
    by rewrite (serve_Selected g _ r _ Hsel), Hend.
  - intros r Hsel. by apply serve_Selected.
Qed.

End Omission.


(** C10, as first stated, fails in its reason: the auth template does not
    match [/bcf/versions] at all, and with the auth route registered before
    the versions route the request is answered just the same. *)
Lemma registration_order_irrelevant :
  matches_template "/bcf/{version}/auth" "/bcf/versions" = false ∧
  route_name <$> @swapped_app exact_validators =
    ["openapi"; "swagger_ui_html"; "swagger_ui_redirect"; "redoc_html";
     "get_auth"; "get_versions"] ∧
  ServerErrorMiddleware
    (Router_call (@swapped_app exact_validators) (GET "/bcf/versions"))
    module_globals
  = @serve exact_validators (GET "/bcf/versions") module_globals ∧
  (@serve exact_validators (GET "/bcf/versions") module_globals).1
  = JSONResponse 200 versions_body.
Proof. repeat split; reflexivity. Qed.
